(** * The provisioning API of the bridge (bridge/provisioning.go)

    A shallow embedding of the HTTP handlers of [ProvisioningAPI]: the
    authentication middleware, the disconnect / reconnect / logout
    handlers and the websocket login handler, followed by the properties
    of these handlers.

    Conventions of the embedding:
    - a Go [string] is a [string] (a sequence of bytes);
    - a Go [error] is an [option string]: [None] is [nil], [Some m] is an
      error whose [Error()] text is [m];
    - the handlers run in a small state monad over a [World]: the [*User]
      the request acts on, the sequence of collaborator calls, what was
      written to the [http.ResponseWriter] and what was done on the
      websocket connection;
    - the collaborators that live outside this file ([User] methods, the
      remoteauth client, the websocket upgrader) are an interface
      ([UserOps]) and a per-handshake environment ([Handshake]);
    - calls to the log sink are not modelled. *)

From Stdlib Require Import String Ascii List Bool Arith Lia.
Import ListNotations.
Open Scope string_scope.
Open Scope list_scope.

(** ** The functions of Go's [strings] package that the file uses *)

Module strings.

(** [strings.HasPrefix(s, prefix)] *)
Definition HasPrefix (s prefix : string) : bool := String.prefix prefix s.

(** [strings.HasSuffix(s, suffix)]:
    [len(s) >= len(suffix) && s[len(s)-len(suffix):] == suffix] *)
Definition HasSuffix (s suffix : string) : bool :=
  (String.length suffix <=? String.length s)%nat &&
  String.eqb
    (substring (String.length s - String.length suffix)
               (String.length suffix) s)
    suffix.

(** [s[n:]] *)
Fixpoint drop (n : nat) (s : string) : string :=
  match n, s with
  | O, _ => s
  | S _, EmptyString => EmptyString
  | S n', String _ s' => drop n' s'
  end.

(** [strings.Split(s, sep)] for a one-byte separator: the pieces
    between the separators, [[s]] when there is none. *)
Fixpoint Split (s : string) (sep : ascii) : list string :=
  match s with
  | EmptyString => [EmptyString]
  | String c s' =>
      if Ascii.eqb c sep then EmptyString :: Split s' sep
      else match Split s' sep with
           | [] => [String c EmptyString]
           | p :: ps => String c p :: ps
           end
  end.

(** The UTF-8 encodings of the runes for which [unicode.IsSpace] holds:
    the six ASCII ones, U+0085, U+00A0, U+1680, U+2000..U+200A, U+2028,
    U+2029, U+202F, U+205F and U+3000. *)
Definition bytes (l : list nat) : string :=
  string_of_list_ascii (map ascii_of_nat l).

Definition spaces : list string :=
  map bytes
    [ [9]; [10]; [11]; [12]; [13]; [32];
      [194; 133]; [194; 160]; [225; 154; 128];
      [226; 128; 128]; [226; 128; 129]; [226; 128; 130]; [226; 128; 131];
      [226; 128; 132]; [226; 128; 133]; [226; 128; 134]; [226; 128; 135];
      [226; 128; 136]; [226; 128; 137]; [226; 128; 138];
      [226; 128; 168]; [226; 128; 169]; [226; 128; 175];
      [226; 129; 159]; [227; 128; 128] ].

(** The length of the white-space rune [s] starts with, if any. *)
Definition leadingSpace (s : string) : option nat :=
  option_map String.length (find (HasPrefix s) spaces).

(** The length of the white-space rune [s] ends with, if any. *)
Definition trailingSpace (s : string) : option nat :=
  option_map String.length (find (HasSuffix s) spaces).

Fixpoint TrimLeft (fuel : nat) (s : string) : string :=
  match fuel with
  | O => s
  | S fuel' =>
      match leadingSpace s with
      | Some n => TrimLeft fuel' (drop n s)
      | None => s
      end
  end.

Fixpoint TrimRight (fuel : nat) (s : string) : string :=
  match fuel with
  | O => s
  | S fuel' =>
      match trailingSpace s with
      | Some n => TrimRight fuel' (substring 0 (String.length s - n) s)
      | None => s
      end
  end.

(** [strings.TrimSpace(s)]: every rune removed is at least one byte, so
    [len(s)] rounds are enough on each side. *)
Definition TrimSpace (s : string) : string :=
  let s1 := TrimLeft (String.length s) s in
  TrimRight (String.length s1) s1.

(** [strings.ToLower] on the bytes [A]..[Z].  The file only compares
    the result with the ASCII literal ["false"]; no rune outside ASCII
    lowers to one of its letters, so that comparison is decided by the
    ASCII part. *)
Definition lowerByte (c : ascii) : ascii :=
  let n := nat_of_ascii c in
  if ((65 <=? n) && (n <=? 90))%nat then ascii_of_nat (n + 32) else c.

Fixpoint ToLower (s : string) : string :=
  match s with
  | EmptyString => EmptyString
  | String c s' => String (lowerByte c) (ToLower s')
  end.

End strings.

(** ** HTTP requests, JSON bodies and the collaborator calls *)

(** A Go [error]. *)
Definition error := option string.

Module http.

Definition StatusOK := 200.
Definition StatusForbidden := 403.
Definition StatusNotFound := 404.
Definition StatusConflict := 409.
Definition StatusInternalServerError := 500.

(** [r.Method], [r.URL.Path], [r.Header] and [r.URL.Query()].  Header
    names are spelled the way the handlers spell them; the
    canonicalisation of names that [Header.Get] applies is left out. *)
Record Request := {
  Method : string;
  Path : string;
  Header : list (string * string);
  Query : list (string * string)
}.

(** [Header.Get(key)] and [Values.Get(key)]: the first value of [key],
    the empty string when there is none. *)
Fixpoint Get (kvs : list (string * string)) (key : string) : string :=
  match kvs with
  | [] => ""
  | (k, v) :: kvs' => if String.eqb k key then v else Get kvs' key
  end.

End http.

Inductive Json :=
| JString (s : string)
| JBool (b : bool)
| JInt (n : nat).

(** [type Response struct] *)
Module Response.
Record t := { Success : bool; Status : string }.
End Response.

(** [type Error struct] *)
Module Error.
Record t := { Success : bool; Error : string; ErrCode : string }.
End Error.

(** What goes through the JSON encoder: one of the two response structs
    or a [map[string]interface{}] literal (entries in the order of the
    literal). *)
Inductive Body :=
| ResponseBody (r : Response.t)
| ErrorBody (e : Error.t)
| MapBody (m : list (string * Json)).

(** The field [key] of an encoded body. *)
Definition field (b : Body) (key : string) : option Json :=
  match b with
  | ResponseBody r =>
      if String.eqb key "success" then Some (JBool (Response.Success r))
      else if String.eqb key "status" then Some (JString (Response.Status r))
      else None
  | ErrorBody e =>
      if String.eqb key "success" then Some (JBool (Error.Success e))
      else if String.eqb key "error" then Some (JString (Error.Error e))
      else if String.eqb key "errcode" then Some (JString (Error.ErrCode e))
      else None
  | MapBody m =>
      option_map snd (find (fun kv => String.eqb (fst kv) key) m)
  end.

(** Operations on an [http.ResponseWriter]. *)
Inductive WAction :=
| AddHeader (key value : string)
| WriteHeader (status : nat)
| Encode (response : Body).

(** Operations on the [*websocket.Conn] of the login route. *)
Inductive ConnAction :=
| WriteJSON (v : Body)
| Close.

(** The calls into code outside this file whose occurrence matters. *)
Module Call.
Inductive t :=
| GetUserByMXID (userID : string)
| ServeHTTP
| Upgrade
| New
| Dial
| Result
| Update
| Login (token : string)
| Logout
| Connect
| Disconnect.
End Call.

Module remoteauth.
(** The identity that [client.Result()] yields; the handler reads
    [UserID] and [Token]. *)
Record User := { UserID : string; Token : string }.
End remoteauth.

Definition SecWebSocketProtocol : string := "com.gitlab.beeper.discord".

(** ** The login handshake seen from the handler *)

(** One outcome of the [select] statement of the login loop:
    [qrCode, ok := <-qrChan] with [ok] true or false, [<-doneChan],
    [<-ctx.Done()]. *)
Inductive Event :=
| QrCode (qrCode : string)
| QrClosed
| Done
| CtxDone.

(** What the world outside the handler answers during one login request.
    The successive outcomes of [select] are a separate argument of the
    handler, the schedule. *)
Record Handshake := {
  upgradeErr : error;                  (* upgrader.Upgrade(w, r, nil) *)
  newErr : error;                      (* remoteauth.New() *)
  dialErr : error;                     (* client.Dial(ctx, qrChan, doneChan) *)
  result : remoteauth.User * error     (* client.Result() *)
}.

(** Whether the handler itself has closed [qrChan] and [doneChan]. *)
Record Chans := { qrClosed : bool; doneClosed : bool }.

(** How a run of the login handler ends. [Failed] carries the [ErrCode]
    of the failure message written before the [return]. *)
Inductive Exit :=
| UpgradeFailed
| Failed (errcode : string)
| Succeeded
| Cancelled
| Waiting      (* the schedule is over while [select] still blocks *)
| Impossible.  (* the schedule takes a value from a channel the handler closed *)

Definition returned (e : Exit) : bool :=
  match e with
  | Waiting | Impossible => false
  | _ => true
  end.

Section Provisioning.

(** The unexported part of a [User] and the [discordgo.Session] type. *)
Context {Private Session : Type}.

(** The [*User] a request acts on: the fields this file reads or
    writes, and the rest. *)
Record User := {
  MXID : string;
  ID : string;
  ManagementRoom : string;
  session : option Session;
  private : Private
}.

Definition setID (id : string) (u : User) : User :=
  {| MXID := MXID u; ID := id; ManagementRoom := ManagementRoom u;
     session := session u; private := private u |}.

(** The methods of [User] that the handlers call. *)
Class UserOps := {
  LoggedIn : User -> bool;
  Connected : User -> bool;
  Connect : User -> error * User;
  Disconnect : User -> error * User;
  Login : string -> User -> error * User;
  Logout : User -> error * User;
  Update : User -> User
}.

Context {ops : UserOps}.

(** *** The handler monad *)

Record World := {
  user : User;
  calls : list Call.t;
  resp : list WAction;
  conn : list ConnAction
}.

Definition M (A : Type) : Type := World -> A * World.

Definition ret {A} (a : A) : M A := fun w => (a, w).

Definition bind {A B} (m : M A) (k : A -> M B) : M B :=
  fun w => let (a, w') := m w in k a w'.

Notation "x <- m ;; k" := (bind m (fun x => k))
  (at level 61, m at next level, right associativity).
Notation "m ;; k" := (bind m (fun _ => k))
  (at level 61, right associativity).

Definition getUser : M User := fun w => (user w, w).

Definition modifyUser (f : User -> User) : M unit :=
  fun w => (tt, {| user := f (user w); calls := calls w;
                   resp := resp w; conn := conn w |}).

Definition call (c : Call.t) : M unit :=
  fun w => (tt, {| user := user w; calls := calls w ++ [c];
                   resp := resp w; conn := conn w |}).

Definition write (a : WAction) : M unit :=
  fun w => (tt, {| user := user w; calls := calls w;
                   resp := resp w ++ [a]; conn := conn w |}).

Definition onConn (a : ConnAction) : M unit :=
  fun w => (tt, {| user := user w; calls := calls w;
                   resp := resp w; conn := conn w ++ [a] |}).

(** A method of the user that can fail and may change the user. *)
Definition method (c : Call.t) (f : User -> error * User) : M error :=
  call c ;;
  fun w => let (err, u) := f (user w) in
           (err, {| user := u; calls := calls w;
                    resp := resp w; conn := conn w |}).

(** [func jsonResponse(w, status, response)] *)
Definition jsonResponse (status : nat) (response : Body) : M unit :=
  write (AddHeader "Content-Type" "application/json") ;;
  write (WriteHeader status) ;;
  write (Encode response).

(** *** [authMiddleware] *)

(** The loop over [authParts]: the first part that, trimmed, starts
    with the protocol identifier and a dash gives the token. *)
Fixpoint subprotocolAuth (auth : string) (authParts : list string) : string :=
  match authParts with
  | [] => auth
  | part :: rest =>
      let part := strings.TrimSpace part in
      if strings.HasPrefix part (SecWebSocketProtocol ++ "-") then
        strings.drop (String.length (SecWebSocketProtocol ++ "-")) part
      else subprotocolAuth auth rest
  end.

(** The value that is compared with the shared secret. *)
Definition requestAuth (r : http.Request) : string :=
  let auth := http.Get (http.Header r) "Authorization" in
  if String.eqb auth "" && strings.HasSuffix (http.Path r) "/login" then
    subprotocolAuth auth
      (strings.Split (http.Get (http.Header r) "Sec-WebSocket-Protocol")
                     ","%char)
  else if strings.HasPrefix auth "Bearer " then
    strings.drop (String.length "Bearer ") auth
  else auth.

Definition authMiddleware (SharedSecret : string)
    (h : http.Request -> M unit) (r : http.Request) : M unit :=
  let auth := requestAuth r in
  if negb (String.eqb auth SharedSecret) then
    jsonResponse http.StatusForbidden
      (MapBody [("error", JString "Invalid auth token");
                ("errcode", JString "M_FORBIDDEN")])
  else
    let userID := http.Get (http.Query r) "user_id" in
    call (Call.GetUserByMXID userID) ;;
    call Call.ServeHTTP ;;
    h r.

(** *** [disconnect], [reconnect], [logout] *)

Definition disconnect (r : http.Request) : M unit :=
  u <- getUser ;;
  if negb (Connected u) then
    jsonResponse http.StatusConflict
      (ErrorBody {| Error.Success := false;
                    Error.Error := "You're not connected to discord";
                    Error.ErrCode := "not connected" |})
  else
    err <- method Call.Disconnect Disconnect ;;
    match err with
    | Some _ =>
        jsonResponse http.StatusInternalServerError
          (ErrorBody {| Error.Success := false;
                        Error.Error := "Failed to disconnect from discord";
                        Error.ErrCode := "failed to disconnect" |})
    | None =>
        jsonResponse http.StatusOK
          (ResponseBody {| Response.Success := true;
                           Response.Status := "Disconnected from Discord" |})
    end.

Definition reconnect (r : http.Request) : M unit :=
  u <- getUser ;;
  if Connected u then
    jsonResponse http.StatusConflict
      (ErrorBody {| Error.Success := false;
                    Error.Error := "You're already connected to discord";
                    Error.ErrCode := "already connected" |})
  else
    err <- method Call.Connect Connect ;;
    match err with
    | Some _ =>
        jsonResponse http.StatusInternalServerError
          (ErrorBody {| Error.Success := false;
                        Error.Error := "Failed to connect to discord";
                        Error.ErrCode := "failed to connect" |})
    | None =>
        jsonResponse http.StatusOK
          (ResponseBody {| Response.Success := true;
                           Response.Status := "Connected to Discord" |})
    end.

Definition notLoggedIn : Body :=
  ErrorBody {| Error.Success := false;
               Error.Error := "You're not logged in";
               Error.ErrCode := "not logged in" |}.

Definition loggedOut : Body :=
  ResponseBody {| Response.Success := true;
                  Response.Status := "Logged out successfully." |}.

(** [force := strings.ToLower(r.URL.Query().Get("force")) != "false"] *)
Definition forceOf (r : http.Request) : bool :=
  negb (String.eqb (strings.ToLower (http.Get (http.Query r) "force"))
                   "false").

Definition logout (r : http.Request) : M unit :=
  u <- getUser ;;
  let force := forceOf r in
  if negb (LoggedIn u) then jsonResponse http.StatusNotFound notLoggedIn
  else
    match session u with
    | None =>
        if force then jsonResponse http.StatusOK loggedOut
        else jsonResponse http.StatusNotFound notLoggedIn
    | Some _ =>
        err <- method Call.Logout Logout ;;
        match err with
        | Some e =>
            if negb force then
              jsonResponse http.StatusInternalServerError
                (ErrorBody
                   {| Error.Success := false;
                      Error.Error := "Unknown error while logging out: " ++ e;
                      Error.ErrCode := e |})
            else jsonResponse http.StatusOK loggedOut
        | None => jsonResponse http.StatusOK loggedOut
        end
    end.

(** *** [login] *)

Definition alreadyLoggedIn : Error.t :=
  {| Error.Success := false;
     Error.Error := "You're already logged into Discord";
     Error.ErrCode := "already logged in" |}.

Definition connectionError : Error.t :=
  {| Error.Success := false;
     Error.Error := "Failed to connect to Discord";
     Error.ErrCode := "connection error" |}.

Definition codeMessage (qrCode : string) : Body :=
  MapBody [("code", JString qrCode); ("timeout", JInt 120)].

Definition successMessage (id : string) : Body :=
  MapBody [("success", JBool true); ("id", JString id)].

(** [c.WriteJSON(Error{...}); return] *)
Definition fail (e : Error.t) : M Exit :=
  onConn (WriteJSON (ErrorBody e)) ;;
  ret (Failed (Error.ErrCode e)).

(** The [case <-doneChan] branch. *)
Definition completed (env : Handshake) : M Exit :=
  call Call.Result ;;
  let (discordUser, err) := result env in
  match err with
  | Some _ => fail connectionError
  | None =>
      modifyUser (setID (remoteauth.UserID discordUser)) ;;
      call Call.Update ;;
      modifyUser Update ;;
      err <- method (Call.Login (remoteauth.Token discordUser))
                    (Login (remoteauth.Token discordUser)) ;;
      match err with
      | Some _ => fail connectionError
      | None =>
          u <- getUser ;;
          onConn (WriteJSON (successMessage (ID u))) ;;
          ret Succeeded
      end
  end.

(** The [for { select { ... } }] loop, one iteration per outcome of
    [select].  A value cannot be received from a channel the handler
    has closed. *)
Fixpoint loop (env : Handshake) (ch : Chans) (evs : list Event) : M Exit :=
  match evs with
  | [] => ret Waiting
  | QrCode qrCode :: evs' =>
      if qrClosed ch then ret Impossible
      else onConn (WriteJSON (codeMessage qrCode)) ;; loop env ch evs'
  | QrClosed :: evs' => loop env ch evs'
  | Done :: _ => completed env
  | CtxDone :: _ => ret Cancelled
  end.

(** The channels after [client.Dial]: both closed when it failed. *)
Definition afterDial (env : Handshake) : Chans :=
  match dialErr env with
  | Some _ => {| qrClosed := true; doneClosed := true |}
  | None => {| qrClosed := false; doneClosed := false |}
  end.

(** From [ctx, cancel := ...] to the end of the function.  When
    [remoteauth.New] fails the failure message is written and the
    function goes on; what [Dial] and [Result] then answer is taken
    from the environment like in any other run. *)
Definition handshake (env : Handshake) (evs : list Event) : M Exit :=
  u <- getUser ;;
  if LoggedIn u then fail alreadyLoggedIn
  else
    call Call.New ;;
    match newErr env with
    | Some _ => onConn (WriteJSON (ErrorBody connectionError))
    | None => ret tt
    end ;;
    call Call.Dial ;;
    loop env (afterDial env) evs.

(** [defer func() { c.Close() }()]: runs when the function returns. *)
Definition deferClose (body : M Exit) : M Exit :=
  e <- body ;;
  (if returned e then onConn Close else ret tt) ;;
  ret e.

Definition login (r : http.Request) (env : Handshake) (evs : list Event)
  : M Exit :=
  let userID := http.Get (http.Query r) "user_id" in
  call (Call.GetUserByMXID userID) ;;
  call Call.Upgrade ;;
  match upgradeErr env with
  | Some _ => ret UpgradeFailed
  | None => deferClose (handshake env evs)
  end.

(** *** Auxiliary notions for the statements *)

(** The [select] outcomes after which the loop goes round again. *)
Definition waits (ev : Event) : bool :=
  match ev with
  | QrCode _ | QrClosed => true
  | Done | CtxDone => false
  end.

(** The outcomes that can occur with the channels in state [ch]. *)
Definition possible (ch : Chans) (ev : Event) : bool :=
  match ev with
  | QrCode _ => negb (qrClosed ch)
  | _ => true
  end.

(** The code messages that a sequence of outcomes makes the loop write. *)
Fixpoint codeMessages (evs : list Event) : list Body :=
  match evs with
  | [] => []
  | QrCode qrCode :: evs' => codeMessage qrCode :: codeMessages evs'
  | _ :: evs' => codeMessages evs'
  end.


(** The messages written on the connection. *)
Fixpoint messages (l : list ConnAction) : list Body :=
  match l with
  | [] => []
  | WriteJSON v :: l' => v :: messages l'
  | Close :: l' => messages l'
  end.

(** The world after the messages [l] have been written. *)
Definition sent (l : list Body) (w : World) : World :=
  {| user := user w; calls := calls w; resp := resp w;
     conn := conn w ++ map WriteJSON l |}.

(** The world when the loop is entered: the handler has looked the user
    up, upgraded the connection, created the client (writing a failure
    message if that failed) and dialled. *)
Definition dialled (r : http.Request) (env : Handshake) (w : World) : World :=
  {| user := user w;
     calls := calls w ++
              [Call.GetUserByMXID (http.Get (http.Query r) "user_id");
               Call.Upgrade; Call.New; Call.Dial];
     resp := resp w;
     conn := conn w ++
             match newErr env with
             | Some _ => [WriteJSON (ErrorBody connectionError)]
             | None => []
             end |}.

(** The world after the deferred close, for a run that ended with [e]. *)
Definition closing (e : Exit) (w : World) : World :=
  if returned e then
    {| user := user w; calls := calls w; resp := resp w;
       conn := conn w ++ [Close] |}
  else w.

(** A world in which nothing has happened yet. *)
Definition start (u : User) : World :=
  {| user := u; calls := []; resp := []; conn := [] |}.

End Provisioning.

Arguments User : clear implicits.
Arguments UserOps : clear implicits.
Arguments World : clear implicits.

(** ** A reference collaborator

    One implementation of the [User] methods, used to run the handlers on
    concrete requests.  A user is logged in when it holds a token and
    connected when its flag says so; [broken] makes [Logout], [Connect]
    and [Disconnect] fail. *)
Module Ref.

Record Private := { token : string; connected : bool }.

Definition User := User Private unit.

Definition mk (mxid id tok : string) (sess : option unit) (c : bool) : User :=
  {| MXID := mxid; ID := id; ManagementRoom := ""; session := sess;
     private := {| token := tok; connected := c |} |}.

Definition setPrivate (p : Private) (sess : option unit) (u : User) : User :=
  {| MXID := MXID u; ID := ID u; ManagementRoom := ManagementRoom u;
     session := sess; private := p |}.

Definition connect (broken : bool) (u : User) : error * User :=
  if broken then (Some "dial tcp: connection refused", u)
  else (None, setPrivate {| token := token (private u); connected := true |}
                         (Some tt) u).

Definition ops (broken : bool) : UserOps Private unit :=
  {| LoggedIn := fun u => negb (String.eqb (token (private u)) "");
     Connected := fun u => connected (private u);
     Connect := connect broken;
     Disconnect := fun u =>
       if broken then (Some "close: broken pipe", u)
       else (None, setPrivate {| token := token (private u);
                                 connected := false |} (session u) u);
     Login := fun tok u =>
       if String.eqb tok "" then (Some "No token specified", u)
       else connect broken
              (setPrivate {| token := tok;
                             connected := connected (private u) |}
                          (session u) u);
     Logout := fun u =>
       if broken then (Some "websocket: close sent", u)
       else (None, setPrivate {| token := ""; connected := false |} None u);
     Update := fun u => u |}.

Definition loginRequest : http.Request :=
  {| http.Method := "GET";
     http.Path := "/_matrix/provision/v1/login";
     http.Header :=
       [("Sec-WebSocket-Protocol",
         "com.gitlab.beeper.discord, com.gitlab.beeper.discord-abc")];
     http.Query := [("user_id", "@u:server")] |}.

Definition post (path : string) (query : list (string * string))
  : http.Request :=
  {| http.Method := "POST"; http.Path := path;
     http.Header := [("Authorization", "Bearer abc")];
     http.Query := query |}.

(** A user without a session on the external service. *)
Definition fresh : User := mk "@u:server" "" "" None false.

(** A user that is logged in and connected. *)
Definition online : User := mk "@u:server" "discorduser#0" "tok" (Some tt) true.

(** A user that is logged in and not connected. *)
Definition offline : User := mk "@u:server" "discorduser#0" "tok" (Some tt) false.

Definition env (dial : error) (res : remoteauth.User * error) : Handshake :=
  {| upgradeErr := None; newErr := None; dialErr := dial; result := res |}.

Definition identity : remoteauth.User :=
  {| remoteauth.UserID := "discorduser#1"; remoteauth.Token := "tok1" |}.

(** The handshake of a client that reaches the external service. *)
Definition reachable : Handshake := env None (identity, None).


(** A request that carries the bare secret in the Authorization header. *)
Definition bare : http.Request :=
  {| http.Method := "GET"; http.Path := "/_matrix/provision/v1/ping";
     http.Header := [("Authorization", "abc")];
     http.Query := [("user_id", "@u:server")] |}.

End Ref.

(** ** The remaining handlers: guilds and ping *)

Definition StatusCreated := 201.
Definition StatusNoContent := 204.

(** [strings.Join(parts, sep)], the inverse of [strings.Split]; the
    handlers do not call it, it serves to say that splitting loses
    nothing. *)
Fixpoint Join (parts : list string) (sep : string) : string :=
  match parts with
  | [] => ""
  | [p] => p
  | p :: ps => p ++ sep ++ Join ps sep
  end.

(** The fields of a guild that [guildsList] reads. *)
Record Guild := { GuildID : string; GuildName : string; Bridge : bool }.

(** The entries of a subprotocol offer that carry a token. *)
Definition offersToken (part : string) : bool :=
  strings.HasPrefix (strings.TrimSpace part) (SecWebSocketProtocol ++ "-").

(** The [select] outcomes that end the login loop. *)
Definition terminal (ev : Event) : bool :=
  match ev with
  | Done | CtxDone => true
  | QrCode _ | QrClosed => false
  end.

(** The codes that a sequence of outcomes delivers before the first
    outcome that ends the loop or that the channels rule out. *)
Fixpoint deliveredCodes (ch : Chans) (evs : list Event) : list string :=
  match evs with
  | [] => []
  | QrCode qrCode :: evs' =>
      if qrClosed ch then [] else qrCode :: deliveredCodes ch evs'
  | QrClosed :: evs' => deliveredCodes ch evs'
  | _ => []
  end.

Section Resources.

Context {Private Session Time : Type}.

Local Abbreviation User := (User Private Session).
Local Abbreviation M := (@M Private Session).

(** The values that [ping] and [guildsList] give to the JSON encoder: a
    map literal is a list of entries, [nil] is [VNull]. *)
#[local] Unset Elimination Schemes.
Inductive JValue :=
| VNull
| VBool (b : bool)
| VString (s : string)
| VTime (t : Time)
| VObject (m : list (string * JValue))
| VArray (l : list JValue).
#[local] Set Elimination Schemes.

(** [m[key]] *)
Fixpoint vfield (m : list (string * JValue)) (key : string) : option JValue :=
  match m with
  | [] => None
  | (k, v) :: m' => if String.eqb k key then Some v else vfield m' key
  end.

(** [m[key] = v]: replaces the entry of [key], adds one when there is
    none. *)
Fixpoint mapSet (key : string) (v : JValue) (m : list (string * JValue))
  : list (string * JValue) :=
  match m with
  | [] => [(key, v)]
  | (k, v') :: m' =>
      if String.eqb k key then (k, v) :: m' else (k, v') :: mapSet key v m'
  end.

(** The guild methods of [User] and its guild table, in the order in
    which [range] goes through it. *)
Class GuildOps := {
  guilds : User -> list Guild;
  bridgeGuild : string -> bool -> User -> error * User;
  unbridgeGuild : string -> User -> error * User
}.

(** The two fields of a [discordgo.Session] that [ping] reads. *)
Class Heartbeats := {
  LastHeartbeatAck : Session -> Time;
  LastHeartbeatSent : Session -> Time
}.

Context {ops : UserOps Private Session} {gops : GuildOps} {hb : Heartbeats}.

(** A guild method of the user: it can fail and may change the user. *)
Definition invoke (f : User -> error * User) : M error :=
  fun w => let (err, u) := f (user w) in
           (err, {| user := u; calls := calls w;
                    resp := resp w; conn := conn w |}).

Definition notFound (e : string) : Body :=
  ErrorBody {| Error.Success := false; Error.Error := e;
               Error.ErrCode := "M_NOT_FOUND" |}.

(** [guildsBridge]; [vars] is [mux.Vars(r)]. *)
Definition guildsBridge (vars : list (string * string)) (r : http.Request)
  : M unit :=
  let guildID := http.Get vars "guildID" in
  bind (invoke (bridgeGuild guildID false)) (fun err =>
  match err with
  | Some e => jsonResponse http.StatusNotFound (notFound e)
  | None => write (WriteHeader StatusCreated)
  end).

Definition guildsUnbridge (vars : list (string * string)) (r : http.Request)
  : M unit :=
  let guildID := http.Get vars "guildID" in
  bind (invoke (unbridgeGuild guildID)) (fun err =>
  match err with
  | Some e => jsonResponse http.StatusNotFound (notFound e)
  | None => write (WriteHeader StatusNoContent)
  end).

Definition guildsJoinEntire (vars : list (string * string)) (r : http.Request)
  : M unit :=
  let guildID := http.Get vars "guildID" in
  bind (invoke (bridgeGuild guildID true)) (fun err =>
  match err with
  | Some e => jsonResponse http.StatusNotFound (notFound e)
  | None => write (WriteHeader StatusCreated)
  end).

(** The entry of one guild in the answer of [guildsList]. *)
Definition guildEntry (guild : Guild) : JValue :=
  VObject [("name", VString (GuildName guild));
           ("id", VString (GuildID guild));
           ("bridged", VBool (Bridge guild))].

(** [guildsList]: the status and the value given to [jsonResponse]. *)
Definition guildsList (u : User) : nat * JValue :=
  (http.StatusOK, VArray (map guildEntry (guilds u))).

(** The [discord] map that [ping] builds. *)
Definition pingDiscord (u : User) : list (string * JValue) :=
  let discord := [("logged_in", VBool (LoggedIn u));
                  ("connected", VBool (Connected u));
                  ("conn", VNull)] in
  let discord :=
    if negb (String.eqb (ID u) "") then mapSet "id" (VString (ID u)) discord
    else discord in
  match session u with
  | Some s =>
      mapSet "conn"
        (VObject [("last_heartbeat_ack", VTime (LastHeartbeatAck s));
                  ("last_heartbeat_sent", VTime (LastHeartbeatSent s))])
        discord
  | None => discord
  end.

(** [ping]: the status and the value given to [jsonResponse]. *)
Definition ping (u : User) : nat * JValue :=
  (http.StatusOK,
   VObject [("discord", VObject (pingDiscord u));
            ("management_room", VString (ManagementRoom u));
            ("mxid", VString (MXID u))]).

End Resources.

Arguments JValue : clear implicits.
Arguments GuildOps : clear implicits.
Arguments Heartbeats : clear implicits.

(** A guild table and heartbeats for the reference collaborator: the
    table is kept in a list beside the user, so the guild methods here
    answer from a fixed table and leave the user alone. *)
Module RefGuilds.

Definition table : list Guild :=
  [ {| GuildID := "1"; GuildName := "one"; Bridge := true |};
    {| GuildID := "2"; GuildName := "two"; Bridge := false |} ].

Definition known (guildID : string) : bool :=
  existsb (fun g => String.eqb (GuildID g) guildID) table.

Definition gops : GuildOps Ref.Private unit :=
  {| guilds := fun _ => table;
     bridgeGuild := fun guildID _ u =>
       if known guildID then (None, u) else (Some "guild not found", u);
     unbridgeGuild := fun guildID u =>
       if known guildID then (None, u) else (Some "guild not found", u) |}.

Definition hb : Heartbeats unit nat :=
  {| LastHeartbeatAck := fun _ => 17; LastHeartbeatSent := fun _ => 16 |}.

End RefGuilds.

(** * Properties *)

Section Properties.

Context {Private Session : Type} {ops : UserOps Private Session}.

Local Abbreviation World := (World Private Session).
Local Abbreviation User := (User Private Session).

Implicit Types (w : World) (u : User) (env : Handshake)
  (evs pre rest : list Event) (r : http.Request).

(** *** The login loop *)

Lemma sent_nil w : sent [] w = w.
Proof.
  destruct w; unfold sent; simpl. now rewrite app_nil_r.
Qed.

Lemma sent_cons b l w :
  sent l (snd (onConn (WriteJSON b) w)) = sent (b :: l) w.
Proof.
  unfold sent, onConn; simpl. now rewrite <- app_assoc.
Qed.

Lemma bind_onConn {A} a (k : M A) w :
  bind (onConn a) (fun _ => k) w = k (snd (onConn a w)).
Proof. reflexivity. Qed.

(** Outcomes that keep the loop going only write code messages. *)
Lemma loop_waits env ch pre rest w :
  forallb waits pre = true ->
  forallb (possible ch) pre = true ->
  loop env ch (pre ++ rest) w = loop env ch rest (sent (codeMessages pre) w).
Proof.
  revert w. induction pre as [|ev pre IH]; intros w Hw Hp.
  - simpl. now rewrite sent_nil.
  - simpl in Hw, Hp.
    apply andb_true_iff in Hw as [Hev Hw].
    apply andb_true_iff in Hp as [Hpe Hp].
    destruct ev as [qrCode| | |]; try discriminate; simpl.
    + simpl in Hpe. apply negb_true_iff in Hpe. rewrite Hpe.
      rewrite bind_onConn, IH by assumption.
      now rewrite sent_cons.
    + now apply IH.
Qed.

(** A read from the closed code channel leaves no trace, wherever it
    occurs in the schedule. *)
Lemma loop_QrClosed env ch pre rest w :
  loop env ch (pre ++ QrClosed :: rest) w = loop env ch (pre ++ rest) w.
Proof.
  revert w. induction pre as [|ev pre IH]; intros w; [reflexivity|].
  destruct ev; simpl; try reflexivity.
  - destruct (qrClosed ch); [reflexivity|].
    rewrite !bind_onConn. apply IH.
  - apply IH.
Qed.

(** Whatever happens, the loop only appends messages to the connection. *)
Lemma loop_conn env ch evs w :
  exists l, conn (snd (loop env ch evs w)) = conn w ++ map WriteJSON l.
Proof.
  revert w. induction evs as [|ev evs IH]; intros w.
  - exists []. simpl. now rewrite app_nil_r.
  - destruct ev as [qrCode| | |]; simpl.
    + destruct (qrClosed ch).
      * exists []. simpl. now rewrite app_nil_r.
      * rewrite bind_onConn.
        destruct (IH (snd (onConn (WriteJSON (codeMessage qrCode)) w)))
          as [l Hl].
        exists (codeMessage qrCode :: l). rewrite Hl. simpl.
        now rewrite <- app_assoc.
    + apply IH.
    + unfold completed, bind, call, fail, method, modifyUser, getUser,
        onConn, ret, bind; simpl.
      destruct (result env) as [discordUser [e|]]; simpl.
      * now exists [ErrorBody connectionError].
      * destruct (Login _ _) as [[e|] u']; simpl.
        -- now exists [ErrorBody connectionError].
        -- now exists [successMessage (ID u')].
    + exists []. simpl. now rewrite app_nil_r.
Qed.


(** *** The completion branch *)

Lemma completed_result_error env w discordUser e :
  result env = (discordUser, Some e) ->
  completed env w =
  (Failed "connection error",
   {| user := user w; calls := calls w ++ [Call.Result]; resp := resp w;
      conn := conn w ++ [WriteJSON (ErrorBody connectionError)] |}).
Proof.
  intros Hres. unfold completed, bind, call, fail, onConn, ret.
  now rewrite Hres.
Qed.

Lemma completed_login w env discordUser err u' :
  result env = (discordUser, None) ->
  Login (remoteauth.Token discordUser)
    (Update (setID (remoteauth.UserID discordUser) (user w))) = (err, u') ->
  completed env w =
  (match err with Some _ => Failed "connection error" | None => Succeeded end,
   {| user := u';
      calls := calls w ++ [Call.Result; Call.Update;
                           Call.Login (remoteauth.Token discordUser)];
      resp := resp w;
      conn := conn w ++
              [WriteJSON match err with
                         | Some _ => ErrorBody connectionError
                         | None => successMessage (ID u')
                         end] |}).
Proof.
  intros Hres HLu.
  unfold completed, method, bind, call, modifyUser, getUser, fail, onConn,
    ret.
  rewrite Hres. simpl. rewrite HLu.
  destruct err; simpl; now rewrite <- !app_assoc.
Qed.

(** *** The handler around the loop *)

Lemma login_dialled r env evs w :
  upgradeErr env = None ->
  LoggedIn (user w) = false ->
  login r env evs w =
  (fst (loop env (afterDial env) evs (dialled r env w)),
   closing (fst (loop env (afterDial env) evs (dialled r env w)))
           (snd (loop env (afterDial env) evs (dialled r env w)))).
Proof.
  intros Hup Hin.
  unfold login, deferClose, handshake, bind, call, getUser, ret, dialled.
  rewrite Hup. simpl. rewrite Hin.
  destruct (newErr env); simpl; rewrite <- ?app_assoc, ?app_nil_r; simpl;
    destruct (loop _ _ _ _) as [e w']; simpl;
    unfold closing, onConn; destruct (returned e); reflexivity.
Qed.

Lemma login_loggedIn r env evs w :
  upgradeErr env = None ->
  LoggedIn (user w) = true ->
  login r env evs w =
  (Failed "already logged in",
   {| user := user w;
      calls := calls w ++
               [Call.GetUserByMXID (http.Get (http.Query r) "user_id");
                Call.Upgrade];
      resp := resp w;
      conn := conn w ++ [WriteJSON (ErrorBody alreadyLoggedIn); Close] |}).
Proof.
  intros Hup Hin.
  unfold login, deferClose, handshake, bind, call, getUser, ret, fail,
    onConn.
  rewrite Hup. simpl. rewrite Hin. simpl. now rewrite <- !app_assoc.
Qed.

Lemma login_not_upgraded r env evs w e :
  upgradeErr env = Some e ->
  login r env evs w =
  (UpgradeFailed,
   {| user := user w;
      calls := calls w ++
               [Call.GetUserByMXID (http.Get (http.Query r) "user_id");
                Call.Upgrade];
      resp := resp w; conn := conn w |}).
Proof.
  intros Hup. unfold login, bind, call, ret. rewrite Hup. simpl.
  now rewrite <- app_assoc.
Qed.

Lemma waits_QrCodes (qrCodes : list string) :
  forallb waits (map QrCode qrCodes) = true.
Proof. induction qrCodes; simpl; auto. Qed.

Lemma codeMessages_QrCodes (qrCodes : list string) :
  codeMessages (map QrCode qrCodes) = map codeMessage qrCodes.
Proof. induction qrCodes; simpl; congruence. Qed.

Lemma possible_open env pre :
  dialErr env = None -> forallb (possible (afterDial env)) pre = true.
Proof.
  intros Hd. unfold afterDial. rewrite Hd.
  induction pre as [|[]]; simpl; auto.
Qed.






(** *** The login handshake *)

(** C2, with the cause the code gives.  When the user is already logged
    in, the handler writes one failure message, whose error code is
    "already logged in", closes the connection and returns; the client
    is neither created nor dialled, the user is left as it was, and the
    schedule plays no part. *)
Theorem logged_in_login_rejected r env evs w :
  upgradeErr env = None ->
  LoggedIn (user w) = true ->
  exists w',
    login r env evs w = (Failed "already logged in", w') /\
    conn w' = conn w ++ [WriteJSON (ErrorBody alreadyLoggedIn); Close] /\
    field (ErrorBody alreadyLoggedIn) "success" = Some (JBool false) /\
    calls w' = calls w ++
               [Call.GetUserByMXID (http.Get (http.Query r) "user_id");
                Call.Upgrade] /\
    user w' = user w.
Proof.
  intros Hup Hin. rewrite (login_loggedIn r env evs w Hup Hin).
  eexists. split; [reflexivity|]. simpl. auto.
Qed.

(** C9.  A read from the closed code channel is a continuation: the
    iteration writes nothing and changes nothing, the loop is back in the
    wait after it, and dropping such a read anywhere in the schedule
    leaves the whole run of the handler unchanged. *)
Theorem closed_code_channel_is_skipped r env ch pre rest w :
  loop env ch (QrClosed :: rest) w = loop env ch rest w /\
  loop env ch [QrClosed] w = (Waiting, w) /\
  login r env (pre ++ QrClosed :: rest) w = login r env (pre ++ rest) w.
Proof.
  split; [reflexivity|]. split; [reflexivity|].
  destruct (upgradeErr env) as [e|] eqn:Hup.
  - now rewrite !(login_not_upgraded _ _ _ _ e Hup).
  - destruct (LoggedIn (user w)) eqn:Hin.
    + now rewrite !login_loggedIn.
    + rewrite !login_dialled by assumption.
      now rewrite loop_QrClosed.
Qed.

(** C6.  Once the upgrade has succeeded, every run of the handler that
    returns has closed the connection, exactly once and after everything
    it wrote on it. *)
Theorem login_closes_connection r env evs w :
  upgradeErr env = None ->
  returned (fst (login r env evs w)) = true ->
  exists l, conn (snd (login r env evs w)) = conn w ++ map WriteJSON l ++ [Close].
Proof.
  intros Hup Hret.
  destruct (LoggedIn (user w)) eqn:Hin.
  - rewrite login_loggedIn by assumption.
    now exists [ErrorBody alreadyLoggedIn].
  - rewrite login_dialled in Hret |- * by assumption.
    simpl in Hret |- *.
    destruct (loop_conn env (afterDial env) evs (dialled r env w)) as [l Hl].
    unfold closing. rewrite Hret. simpl. rewrite Hl.
    unfold dialled; simpl. destruct (newErr env).
    + exists (ErrorBody connectionError :: l). simpl.
      now rewrite <- !app_assoc.
    + exists l. now rewrite app_nil_r, <- app_assoc.
Qed.




(** *** The authentication middleware *)

#[local] Arguments jsonResponse : simpl never.
#[local] Arguments method : simpl never.

Lemma jsonResponse_run status body w :
  jsonResponse status body w =
  (tt, {| user := user w; calls := calls w;
          resp := resp w ++ [AddHeader "Content-Type" "application/json";
                             WriteHeader status; Encode body];
          conn := conn w |}).
Proof.
  unfold jsonResponse, bind, write. simpl. now rewrite <- !app_assoc.
Qed.

Lemma method_run c (f : User -> error * User) w :
  method c f w =
  (fst (f (user w)),
   {| user := snd (f (user w)); calls := calls w ++ [c];
      resp := resp w; conn := conn w |}).
Proof.
  unfold method, bind, call. simpl. now destruct (f (user w)).
Qed.

Lemma Get_absent (kvs : list (string * string)) key :
  (forall v, ~ In (key, v) kvs) -> http.Get kvs key = "".
Proof.
  induction kvs as [|[k v] kvs IH]; intros Hno; [reflexivity|].
  simpl. destruct (String.eqb_spec k key) as [->|Hne].
  - exfalso. apply (Hno v). now left.
  - apply IH. intros v' Hin. apply (Hno v'). now right.
Qed.

(** The secret of a request with a bearer header is what follows the
    prefix. *)
Lemma requestAuth_Bearer r token :
  http.Get (http.Header r) "Authorization" = ("Bearer " ++ token)%string ->
  requestAuth r = token.
Proof.
  intros Hauth. unfold requestAuth. rewrite Hauth. simpl.
  now destruct token.
Qed.

(** C5.  A request whose secret, as [requestAuth] extracts it from the
    Authorization header or from the subprotocol list of the login
    route, differs from the shared secret gets status 403 with error
    code "M_FORBIDDEN" and nothing else happens: no user is looked up,
    the wrapped handler is not called, the user and the connection are
    untouched, whatever the path and the handler are. *)
Theorem gate_rejects_wrong_secret SharedSecret (h : http.Request -> M unit) r w :
  requestAuth r <> SharedSecret ->
  exists body,
    authMiddleware SharedSecret h r w =
    (tt, {| user := user w; calls := calls w;
            resp := resp w ++ [AddHeader "Content-Type" "application/json";
                               WriteHeader 403; Encode body];
            conn := conn w |}) /\
    field body "errcode" = Some (JString "M_FORBIDDEN").
Proof.
  intros Hne. unfold authMiddleware.
  apply String.eqb_neq in Hne. rewrite Hne.
  change (negb false) with true. cbv iota.
  rewrite jsonResponse_run. eexists. split; reflexivity.
Qed.

(** C10.  The Sec-WebSocket-Protocol header plays a part only when the
    Authorization header is empty and the path ends in "/login": two
    requests that agree on the Authorization header and on the path give
    the same secret otherwise.  And a non-empty Authorization header
    that is the shared secret itself, with no "Bearer " in front, passes
    the gate on every path: the user is looked up and the wrapped
    handler runs.  (An empty header is the case of the first part: it
    passes as the secret on every path but those ending in "/login".) *)
Theorem gate_header_rules SharedSecret (h : http.Request -> M unit) r w :
  (forall r',
      http.Get (http.Header r') "Authorization" =
        http.Get (http.Header r) "Authorization" ->
      http.Path r' = http.Path r ->
      http.Get (http.Header r) "Authorization" <> "" \/
        strings.HasSuffix (http.Path r) "/login" = false ->
      requestAuth r' = requestAuth r) /\
  (http.Get (http.Header r) "Authorization" = SharedSecret ->
   SharedSecret <> "" \/ strings.HasSuffix (http.Path r) "/login" = false ->
   strings.HasPrefix SharedSecret "Bearer " = false ->
   requestAuth r = SharedSecret /\
   authMiddleware SharedSecret h r w =
   h r {| user := user w;
          calls := calls w ++
                   [Call.GetUserByMXID (http.Get (http.Query r) "user_id");
                    Call.ServeHTTP];
          resp := resp w; conn := conn w |}).
Proof.
  split.
  - intros r' Hauth Hpath Hcase. unfold requestAuth.
    rewrite Hauth, Hpath.
    destruct Hcase as [Hne|Hsuf].
    + apply String.eqb_neq in Hne. now rewrite Hne.
    + rewrite Hsuf, !andb_false_r. reflexivity.
  - intros Hauth Hne Hpre.
    assert (Hreq : requestAuth r = SharedSecret).
    { unfold requestAuth. rewrite Hauth, Hpre.
      destruct Hne as [Hne|Hsuf].
      - apply String.eqb_neq in Hne. now rewrite Hne.
      - now rewrite Hsuf, andb_false_r. }
    split; [assumption|].
    unfold authMiddleware. rewrite Hreq, String.eqb_refl. simpl.
    unfold bind, call. simpl. now rewrite <- app_assoc.
Qed.

(** *** The session commands *)

(** C7.  [disconnect] on a user that is not connected answers 409 and
    neither calls a method of the user nor changes it; on a connected
    user it calls [Disconnect] once and nothing else, and the user is
    what [Disconnect] leaves.  [reconnect] on a connected user answers
    409 in the same way. *)
Theorem toggle_conflicts r w :
  (Connected (user w) = false ->
   disconnect r w =
   (tt, {| user := user w; calls := calls w;
           resp := resp w ++
                   [AddHeader "Content-Type" "application/json";
                    WriteHeader 409;
                    Encode (ErrorBody
                              {| Error.Success := false;
                                 Error.Error := "You're not connected to discord";
                                 Error.ErrCode := "not connected" |})];
           conn := conn w |})) /\
  (Connected (user w) = true ->
   calls (snd (disconnect r w)) = calls w ++ [Call.Disconnect] /\
   user (snd (disconnect r w)) = snd (Disconnect (user w))) /\
  (Connected (user w) = true ->
   reconnect r w =
   (tt, {| user := user w; calls := calls w;
           resp := resp w ++
                   [AddHeader "Content-Type" "application/json";
                    WriteHeader 409;
                    Encode (ErrorBody
                              {| Error.Success := false;
                                 Error.Error :=
                                   "You're already connected to discord";
                                 Error.ErrCode := "already connected" |})];
           conn := conn w |})).
Proof.
  split; [|split].
  - intros Hc. unfold disconnect, bind, getUser. rewrite Hc. simpl.
    now rewrite jsonResponse_run.
  - intros Hc. unfold disconnect, bind, getUser.
    rewrite Hc. simpl. rewrite method_run.
    destruct (Disconnect (user w)) as [[e|] u']; simpl; auto.
  - intros Hc. unfold reconnect, bind, getUser. rewrite Hc.
    now rewrite jsonResponse_run.
Qed.

(** C8.  For a logged-in user with a session whose [Logout] fails with
    [e]: when the force parameter, lowered, is "false" the answer is 500
    with the text of the error in the body; in every other case it is 200
    with the success body.  Without a force parameter, force is on. *)
Theorem logout_error_and_force r w s e :
  LoggedIn (user w) = true ->
  session (user w) = Some s ->
  fst (Logout (user w)) = Some e ->
  (forceOf r = false ->
   resp (snd (logout r w)) =
   resp w ++ [AddHeader "Content-Type" "application/json";
              WriteHeader 500;
              Encode (ErrorBody
                        {| Error.Success := false;
                           Error.Error :=
                             "Unknown error while logging out: " ++ e;
                           Error.ErrCode := e |})]) /\
  (forceOf r = true ->
   resp (snd (logout r w)) =
   resp w ++ [AddHeader "Content-Type" "application/json";
              WriteHeader 200;
              Encode (ResponseBody
                        {| Response.Success := true;
                           Response.Status := "Logged out successfully." |})]) /\
  calls (snd (logout r w)) = calls w ++ [Call.Logout] /\
  ((forall v, ~ In ("force", v) (http.Query r)) -> forceOf r = true).
Proof.
  intros Hin Hs He.
  assert (Hrun : logout r w =
    let u' := snd (Logout (user w)) in
    jsonResponse
      (if forceOf r then http.StatusOK else http.StatusInternalServerError)
      (if forceOf r then loggedOut
       else ErrorBody {| Error.Success := false;
                         Error.Error := "Unknown error while logging out: " ++ e;
                         Error.ErrCode := e |})
      {| user := u'; calls := calls w ++ [Call.Logout];
         resp := resp w; conn := conn w |}).
  { unfold logout, bind, getUser. rewrite Hin, Hs. simpl.
    rewrite method_run, He. simpl.
    destruct (forceOf r); reflexivity. }
  rewrite Hrun, jsonResponse_run. simpl.
  repeat split.
  - intros Hf. now rewrite Hf.
  - intros Hf. now rewrite Hf.
  - intros Hno. unfold forceOf. now rewrite Get_absent.
Qed.

End Properties.

(** * The properties on concrete runs

    The handlers run with the reference collaborator [Ref.ops]. *)

(** ** The string functions on the inputs the handlers give them *)

Example HasSuffix_login :
  strings.HasSuffix "/_matrix/provision/v1/login" "/login" = true.
Proof. reflexivity. Qed.

Example HasSuffix_short : strings.HasSuffix "gin" "/login" = false.
Proof. reflexivity. Qed.

Example Split_commas :
  strings.Split "a, b,,c" ","%char = ["a"; " b"; ""; "c"].
Proof. reflexivity. Qed.

Example Split_empty : strings.Split "" ","%char = [""].
Proof. reflexivity. Qed.

Example TrimSpace_ascii : strings.TrimSpace "  a b  " = "a b".
Proof. reflexivity. Qed.

Example TrimSpace_nbsp :
  strings.TrimSpace (strings.bytes [194; 160; 97; 226; 128; 168]) = "a".
Proof. vm_compute. reflexivity. Qed.

Example ToLower_mixed : strings.ToLower "FaLsE" = "false".
Proof. vm_compute. reflexivity. Qed.

Example requestAuth_subprotocol : requestAuth Ref.loginRequest = "abc".
Proof. vm_compute. reflexivity. Qed.

(** The scenario of the specification: secret "abc", a user without a
    session, one code and then the completion. *)
Example scenario :
  authMiddleware "abc"
    (fun r w =>
       let (_, w') := login (ops := Ref.ops false) r Ref.reachable
                        [QrCode "XQR1"; Done] w
       in (tt, w'))
    Ref.loginRequest (start Ref.fresh) =
  (tt,
   {| user := Ref.mk "@u:server" "discorduser#1" "tok1" (Some tt) true;
      calls := [Call.GetUserByMXID "@u:server"; Call.ServeHTTP;
                Call.GetUserByMXID "@u:server"; Call.Upgrade; Call.New;
                Call.Dial; Call.Result; Call.Update; Call.Login "tok1"];
      resp := [];
      conn := [WriteJSON (MapBody [("code", JString "XQR1");
                                   ("timeout", JInt 120)]);
               WriteJSON (MapBody [("success", JBool true);
                                   ("id", JString "discorduser#1")]);
               Close] |}).
Proof. vm_compute. reflexivity. Qed.

Example requestAuth_post :
  requestAuth (Ref.post "/_matrix/provision/v1/logout" []) = "abc".
Proof. vm_compute. reflexivity. Qed.



Lemma logged_in_login_rejected_witness :
  exists w',
    login (ops := Ref.ops false) Ref.loginRequest Ref.reachable
      [QrCode "XQR1"; Done] (start Ref.online) =
      (Failed "already logged in", w') /\
    calls w' = [Call.GetUserByMXID "@u:server"; Call.Upgrade].
Proof.
  destruct (logged_in_login_rejected (ops := Ref.ops false) Ref.loginRequest
              Ref.reachable [QrCode "XQR1"; Done] (start Ref.online)
              eq_refl eq_refl) as [w' [Hrun [_ [_ [Hcalls _]]]]].
  exists w'. split; assumption.
Defined.

(** C2 as stated fails on the cause: for a logged-in user the run does
    not end with the cause "already authenticated"; the one failure
    message carries the error code "already logged in". *)
Lemma logged_in_cause_is_not_already_authenticated :
  LoggedIn (UserOps := Ref.ops false) Ref.online = true /\
  fst (login (ops := Ref.ops false) Ref.loginRequest Ref.reachable []
         (start Ref.online)) <> Failed "already authenticated" /\
  messages (conn (snd (login (ops := Ref.ops false) Ref.loginRequest
                         Ref.reachable [] (start Ref.online)))) =
    [ErrorBody alreadyLoggedIn] /\
  field (ErrorBody alreadyLoggedIn) "errcode" = Some (JString "already logged in").
Proof.
  repeat split; try reflexivity.
  intros H. vm_compute in H. discriminate H.
Qed.



Lemma login_closes_connection_witness :
  exists l,
    conn (snd (login (ops := Ref.ops true) Ref.loginRequest Ref.reachable
                 [QrCode "XQR1"; Done] (start Ref.fresh))) =
    conn (start Ref.fresh) ++ map WriteJSON l ++ [Close].
Proof.
  apply (login_closes_connection (ops := Ref.ops true) Ref.loginRequest
           Ref.reachable [QrCode "XQR1"; Done] (start Ref.fresh));
    reflexivity.
Defined.

Lemma gate_rejects_wrong_secret_witness :
  exists body,
    authMiddleware "xyz" (disconnect (ops := Ref.ops false)) Ref.loginRequest
      (start Ref.online) =
    (tt, {| user := Ref.online; calls := [];
            resp := [AddHeader "Content-Type" "application/json";
                     WriteHeader 403; Encode body];
            conn := [] |}) /\
    field body "errcode" = Some (JString "M_FORBIDDEN").
Proof.
  apply (gate_rejects_wrong_secret "xyz" (disconnect (ops := Ref.ops false))
           Ref.loginRequest (start Ref.online)).
  intros H. vm_compute in H. discriminate H.
Defined.

Lemma gate_header_rules_witness :
  requestAuth Ref.bare = "abc" /\
  authMiddleware "abc" (disconnect (ops := Ref.ops false)) Ref.bare
    (start Ref.online) =
  disconnect (ops := Ref.ops false) Ref.bare
    {| user := Ref.online;
       calls := [Call.GetUserByMXID "@u:server"; Call.ServeHTTP];
       resp := []; conn := [] |}.
Proof.
  apply (gate_header_rules "abc" (disconnect (ops := Ref.ops false)) Ref.bare
           (start Ref.online)).
  - reflexivity.
  - left. intros H. discriminate H.
  - reflexivity.
Defined.

Lemma toggle_conflicts_witness :
  resp (snd (disconnect (ops := Ref.ops false) (Ref.post "/disconnect" [])
               (start Ref.offline))) =
    [AddHeader "Content-Type" "application/json"; WriteHeader 409;
     Encode (ErrorBody
               {| Error.Success := false;
                  Error.Error := "You're not connected to discord";
                  Error.ErrCode := "not connected" |})] /\
  calls (snd (disconnect (ops := Ref.ops false) (Ref.post "/disconnect" [])
                (start Ref.online))) = [Call.Disconnect] /\
  user (snd (reconnect (ops := Ref.ops false) (Ref.post "/reconnect" [])
               (start Ref.online))) = Ref.online.
Proof.
  split; [|split].
  - rewrite (proj1 (toggle_conflicts (ops := Ref.ops false)
                      (Ref.post "/disconnect" []) (start Ref.offline))
               eq_refl).
    reflexivity.
  - apply (toggle_conflicts (ops := Ref.ops false) (Ref.post "/disconnect" [])
             (start Ref.online)).
    reflexivity.
  - rewrite (proj2 (proj2 (toggle_conflicts (ops := Ref.ops false)
                             (Ref.post "/reconnect" []) (start Ref.online)))
               eq_refl).
    reflexivity.
Defined.

Lemma logout_error_and_force_witness :
  resp (snd (logout (ops := Ref.ops true)
               (Ref.post "/logout" [("force", "False")]) (start Ref.online))) =
  [AddHeader "Content-Type" "application/json";
   WriteHeader 500;
   Encode (ErrorBody
             {| Error.Success := false;
                Error.Error :=
                  "Unknown error while logging out: websocket: close sent";
                Error.ErrCode := "websocket: close sent" |})].
Proof.
  apply (logout_error_and_force (ops := Ref.ops true)
           (Ref.post "/logout" [("force", "False")]) (start Ref.online)
           tt "websocket: close sent" eq_refl eq_refl eq_refl).
  vm_compute. reflexivity.
Defined.

(** * Further properties *)

(** ** The string functions *)

Lemma append_length (s t : string) :
  String.length (s ++ t) = String.length s + String.length t.
Proof. induction s; simpl; congruence. Qed.

Lemma append_nil_r (s : string) : (s ++ "")%string = s.
Proof. induction s; simpl; congruence. Qed.

Lemma append_assoc (s t u : string) :
  ((s ++ t) ++ u)%string = (s ++ t ++ u)%string.
Proof. induction s; simpl; congruence. Qed.

Lemma substring_all (s : string) : substring 0 (String.length s) s = s.
Proof. induction s; simpl; congruence. Qed.

Lemma substring_skip (p s : string) n :
  substring (String.length p) n (p ++ s) = substring 0 n s.
Proof. induction p; simpl; auto. Qed.

Lemma substring_long (s : string) n :
  String.length s <= n -> substring 0 n s = s.
Proof.
  revert n. induction s as [|c s IH]; intros [|n] Hn; simpl in *;
    try reflexivity; try lia.
  f_equal. apply IH. lia.
Qed.

(** A string is its first [n] bytes followed by the rest. *)
Lemma substring_split (s : string) n :
  s = (substring 0 n s ++ strings.drop n s)%string.
Proof.
  revert n. induction s as [|c s IH]; intros [|n]; simpl; try reflexivity.
  f_equal. apply IH.
Qed.

Lemma substring_length (s : string) n :
  n <= String.length s -> String.length (substring 0 n s) = n.
Proof.
  revert n. induction s as [|c s IH]; intros [|n] Hn; simpl in *;
    try reflexivity; try lia.
  f_equal. apply IH. lia.
Qed.

Lemma drop_length (s : string) n :
  String.length (strings.drop n s) = String.length s - n.
Proof.
  revert n. induction s as [|c s IH]; intros [|n]; simpl; auto.
Qed.

Lemma drop_append (p t : string) :
  strings.drop (String.length p) (p ++ t) = t.
Proof. induction p; simpl; auto. Qed.

Lemma drop_substring (s : string) n :
  strings.drop n s = substring n (String.length s - n) s.
Proof.
  revert n. induction s as [|c s IH]; intros [|n]; simpl; try reflexivity.
  - f_equal. symmetry. apply substring_all.
  - apply IH.
Qed.

Lemma HasPrefix_append (p t : string) : strings.HasPrefix (p ++ t) p = true.
Proof.
  unfold strings.HasPrefix. induction p as [|c p IH]; simpl.
  - now destruct t.
  - destruct (ascii_dec c c); [assumption|congruence].
Qed.

Lemma HasPrefix_split (s p : string) :
  strings.HasPrefix s p = true ->
  s = (p ++ strings.drop (String.length p) s)%string.
Proof.
  unfold strings.HasPrefix. revert s.
  induction p as [|c p IH]; intros [|d s] H; simpl in *;
    try reflexivity; try discriminate.
  destruct (ascii_dec c d) as [->|]; [|discriminate].
  f_equal. now apply IH.
Qed.

(** X2.  [HasPrefix] holds exactly of the strings that start with the
    prefix, and cutting [len(prefix)] bytes off such a string gives the
    rest: a value that passes the test is the prefix followed by what
    the handler keeps. *)
Theorem HasPrefix_cut (s p : string) :
  (strings.HasPrefix s p = true <-> exists t, s = (p ++ t)%string) /\
  (forall t, strings.drop (String.length p) (p ++ t) = t) /\
  (strings.HasPrefix s p = true ->
   s = (p ++ strings.drop (String.length p) s)%string).
Proof.
  split; [|split].
  - split.
    + intros H. eexists. now apply HasPrefix_split.
    + intros [t ->]. apply HasPrefix_append.
  - intros t. apply drop_append.
  - apply HasPrefix_split.
Qed.

Lemma HasSuffix_append (p suffix : string) :
  strings.HasSuffix (p ++ suffix) suffix = true.
Proof.
  unfold strings.HasSuffix. rewrite append_length.
  apply andb_true_iff. split.
  - apply Nat.leb_le. lia.
  - replace (String.length p + String.length suffix - String.length suffix)
      with (String.length p) by lia.
    rewrite substring_skip, substring_all. apply String.eqb_refl.
Qed.

Lemma HasSuffix_split (s suffix : string) :
  strings.HasSuffix s suffix = true ->
  s = (substring 0 (String.length s - String.length suffix) s ++ suffix)%string.
Proof.
  unfold strings.HasSuffix. intros H.
  apply andb_true_iff in H as [Hlen Heq].
  apply Nat.leb_le in Hlen. apply String.eqb_eq in Heq.
  rewrite (substring_split s (String.length s - String.length suffix)) at 1.
  f_equal. rewrite drop_substring.
  replace (String.length s - (String.length s - String.length suffix))
    with (String.length suffix) by lia.
  exact Heq.
Qed.

(** X1.  [HasSuffix] holds exactly of the strings that end with the
    suffix: the login special case of the middleware applies to the
    paths of the form [p ++ "/login"] and to no other. *)
Theorem HasSuffix_iff (s suffix : string) :
  strings.HasSuffix s suffix = true <-> exists p, s = (p ++ suffix)%string.
Proof.
  split.
  - intros H. eexists. now apply HasSuffix_split.
  - intros [p ->]. apply HasSuffix_append.
Qed.

Lemma Split_not_nil (s : string) sep : strings.Split s sep <> [].
Proof.
  destruct s as [|c s]; simpl; [discriminate|].
  destruct (Ascii.eqb c sep); [discriminate|].
  destruct (strings.Split s sep); discriminate.
Qed.

Lemma Join_cons_char c (p : string) ps sep :
  Join (String c p :: ps) sep = String c (Join (p :: ps) sep).
Proof. destruct ps; reflexivity. Qed.

(** X3.  [Split] loses nothing and cuts at every separator: the parts
    joined by the separator give the string back, no part contains the
    separator, and there is one part more than there are separators. *)
Theorem Split_Join (s : string) (sep : ascii) :
  Join (strings.Split s sep) (String sep "") = s /\
  Forall (fun part => ~ In sep (list_ascii_of_string part))
         (strings.Split s sep) /\
  List.length (strings.Split s sep) =
    S (count_occ ascii_dec (list_ascii_of_string s) sep).
Proof.
  induction s as [|c s [IHj [IHf IHl]]]; simpl.
  - repeat split. constructor; [|constructor]. simpl. tauto.
  - destruct (Ascii.eqb_spec c sep) as [->|Hne].
    + repeat split.
      * destruct (strings.Split s sep) as [|p ps] eqn:Hs;
          [now apply Split_not_nil in Hs|].
        simpl in *. now rewrite IHj.
      * constructor; [simpl; tauto|assumption].
      * simpl. rewrite IHl. destruct (ascii_dec sep sep); congruence.
    + destruct (strings.Split s sep) as [|p ps] eqn:Hs;
        [now apply Split_not_nil in Hs|].
      repeat split.
      * rewrite Join_cons_char. now rewrite IHj.
      * inversion IHf; subst. constructor; [|assumption].
        simpl. intros [Heq|Hin]; [congruence|contradiction].
      * simpl in *. rewrite IHl. destruct (ascii_dec c sep); congruence.
Qed.

Lemma spaces_nonempty (pat : string) :
  In pat strings.spaces -> 1 <= String.length pat.
Proof.
  assert (H : forallb (fun p => 1 <=? String.length p)%nat strings.spaces
              = true) by reflexivity.
  rewrite forallb_forall in H. intros Hin.
  apply Nat.leb_le. now apply H.
Qed.

Lemma leadingSpace_Some (s : string) n :
  strings.leadingSpace s = Some n ->
  1 <= n /\ exists t, s = (substring 0 n s ++ t)%string /\
                      strings.drop n s = t /\ n <= String.length s.
Proof.
  unfold strings.leadingSpace. intros H.
  destruct (find (strings.HasPrefix s) strings.spaces) as [pat|] eqn:Hf;
    [|discriminate].
  injection H as <-. apply find_some in Hf as [Hin Hpre].
  split; [now apply spaces_nonempty|].
  apply HasPrefix_split in Hpre.
  exists (strings.drop (String.length pat) s). repeat split.
  - apply substring_split.
  - rewrite Hpre, append_length. lia.
Qed.

Lemma trailingSpace_Some (s : string) n :
  strings.trailingSpace s = Some n -> 1 <= n /\ n <= String.length s.
Proof.
  unfold strings.trailingSpace. intros H.
  destruct (find (strings.HasSuffix s) strings.spaces) as [pat|] eqn:Hf;
    [|discriminate].
  injection H as <-. apply find_some in Hf as [Hin Hsuf].
  split; [now apply spaces_nonempty|].
  unfold strings.HasSuffix in Hsuf. apply andb_true_iff in Hsuf as [Hl _].
  now apply Nat.leb_le.
Qed.

Lemma leadingSpace_None (s : string) :
  strings.leadingSpace s = None <->
  forall pat, In pat strings.spaces -> strings.HasPrefix s pat = false.
Proof.
  unfold strings.leadingSpace. split.
  - intros H pat Hin.
    destruct (find (strings.HasPrefix s) strings.spaces) eqn:Hf;
      [discriminate|].
    now apply (find_none _ _ Hf).
  - intros H.
    destruct (find (strings.HasPrefix s) strings.spaces) as [pat|] eqn:Hf;
      [|reflexivity].
    apply find_some in Hf as [Hin Hpre]. rewrite (H pat Hin) in Hpre.
    discriminate.
Qed.

Lemma TrimLeft_trimmed fuel (s : string) :
  String.length s <= fuel ->
  strings.leadingSpace (strings.TrimLeft fuel s) = None.
Proof.
  revert s. induction fuel as [|fuel IH]; intros s Hlen; simpl.
  - destruct s; [reflexivity|simpl in Hlen; lia].
  - destruct (strings.leadingSpace s) as [n|] eqn:Hs; [|assumption].
    apply IH. apply leadingSpace_Some in Hs as [Hn _].
    rewrite drop_length. lia.
Qed.

Lemma TrimLeft_suffix fuel (s : string) :
  exists p, s = (p ++ strings.TrimLeft fuel s)%string.
Proof.
  revert s. induction fuel as [|fuel IH]; intros s; simpl.
  - now exists "".
  - destruct (strings.leadingSpace s) as [n|] eqn:Hs; [|now exists ""].
    destruct (IH (strings.drop n s)) as [p Hp].
    exists (substring 0 n s ++ p)%string.
    rewrite append_assoc, <- Hp. apply substring_split.
Qed.

Lemma TrimRight_trimmed fuel (s : string) :
  String.length s <= fuel ->
  strings.trailingSpace (strings.TrimRight fuel s) = None.
Proof.
  revert s. induction fuel as [|fuel IH]; intros s Hlen; simpl.
  - destruct s; [reflexivity|simpl in Hlen; lia].
  - destruct (strings.trailingSpace s) as [n|] eqn:Hs; [|assumption].
    apply IH. apply trailingSpace_Some in Hs as [Hn Hle].
    rewrite substring_length by lia. lia.
Qed.

Lemma TrimRight_prefix fuel (s : string) :
  exists q, s = (strings.TrimRight fuel s ++ q)%string.
Proof.
  revert s. induction fuel as [|fuel IH]; intros s; simpl.
  - exists "". now rewrite append_nil_r.
  - destruct (strings.trailingSpace s) as [n|] eqn:Hs.
    + destruct (IH (substring 0 (String.length s - n) s)) as [q Hq].
      exists (q ++ strings.drop (String.length s - n) s)%string.
      rewrite <- append_assoc, <- Hq. apply substring_split.
    + exists "". now rewrite append_nil_r.
Qed.

Lemma leadingSpace_prefix (x q : string) :
  strings.leadingSpace (x ++ q) = None -> strings.leadingSpace x = None.
Proof.
  rewrite !leadingSpace_None. intros H pat Hin.
  destruct (strings.HasPrefix x pat) eqn:Hx; [|reflexivity].
  apply HasPrefix_split in Hx.
  rewrite <- (H pat Hin). rewrite Hx, append_assoc.
  symmetry. apply HasPrefix_append.
Qed.

(** X4.  [TrimSpace] only removes bytes at the two ends, what it returns
    neither starts nor ends with a white-space rune, and a string that
    has none at its ends is returned as it is. *)
Theorem TrimSpace_trimmed (s : string) :
  (exists p q, s = (p ++ strings.TrimSpace s ++ q)%string) /\
  strings.leadingSpace (strings.TrimSpace s) = None /\
  strings.trailingSpace (strings.TrimSpace s) = None /\
  (strings.leadingSpace s = None -> strings.trailingSpace s = None ->
   strings.TrimSpace s = s).
Proof.
  unfold strings.TrimSpace.
  set (s1 := strings.TrimLeft (String.length s) s).
  assert (H1 : strings.leadingSpace s1 = None)
    by (apply TrimLeft_trimmed; lia).
  destruct (TrimLeft_suffix (String.length s) s) as [p Hp]. fold s1 in Hp.
  destruct (TrimRight_prefix (String.length s1) s1) as [q Hq].
  repeat split.
  - exists p, q. now rewrite <- Hq.
  - rewrite Hq in H1. now apply leadingSpace_prefix in H1.
  - apply TrimRight_trimmed. lia.
  - intros Hl Ht. subst s1.
    assert (E : strings.TrimLeft (String.length s) s = s)
      by (destruct (String.length s); simpl; [|rewrite Hl]; reflexivity).
    rewrite E. destruct (String.length s); simpl; [|rewrite Ht]; reflexivity.
Qed.

(** ** The force parameter of [logout] *)

Lemma lowerByte_f (c : ascii) :
  strings.lowerByte c = "f"%char <-> c = "f"%char \/ c = "F"%char.
Proof.
  split.
  - destruct c as [[] [] [] [] [] [] [] []]; vm_compute; intros H;
      try discriminate H; auto.
  - intros [->| ->]; reflexivity.
Qed.

Lemma lowerByte_a (c : ascii) :
  strings.lowerByte c = "a"%char <-> c = "a"%char \/ c = "A"%char.
Proof.
  split.
  - destruct c as [[] [] [] [] [] [] [] []]; vm_compute; intros H;
      try discriminate H; auto.
  - intros [->| ->]; reflexivity.
Qed.

Lemma lowerByte_l (c : ascii) :
  strings.lowerByte c = "l"%char <-> c = "l"%char \/ c = "L"%char.
Proof.
  split.
  - destruct c as [[] [] [] [] [] [] [] []]; vm_compute; intros H;
      try discriminate H; auto.
  - intros [->| ->]; reflexivity.
Qed.

Lemma lowerByte_s (c : ascii) :
  strings.lowerByte c = "s"%char <-> c = "s"%char \/ c = "S"%char.
Proof.
  split.
  - destruct c as [[] [] [] [] [] [] [] []]; vm_compute; intros H;
      try discriminate H; auto.
  - intros [->| ->]; reflexivity.
Qed.

Lemma lowerByte_e (c : ascii) :
  strings.lowerByte c = "e"%char <-> c = "e"%char \/ c = "E"%char.
Proof.
  split.
  - destruct c as [[] [] [] [] [] [] [] []]; vm_compute; intros H;
      try discriminate H; auto.
  - intros [->| ->]; reflexivity.
Qed.

(** X8.  Force is off exactly when the first force parameter of the
    query spells "false" in letters of either case; with any other
    value (an empty one, "0", "no") it is on. *)
Theorem forceOf_false r :
  forceOf r = false <->
  exists f a l s e,
    http.Get (http.Query r) "force" =
      String f (String a (String l (String s (String e "")))) /\
    (f = "f" \/ f = "F")%char /\ (a = "a" \/ a = "A")%char /\
    (l = "l" \/ l = "L")%char /\ (s = "s" \/ s = "S")%char /\
    (e = "e" \/ e = "E")%char.
Proof.
  unfold forceOf. rewrite negb_false_iff, String.eqb_eq.
  destruct (http.Get (http.Query r) "force")
    as [|f [|a [|l [|s [|e [|x v]]]]]]; simpl;
    try (split; [discriminate|];
         intros (? & ? & ? & ? & ? & H & _); discriminate H).
  split.
  - intros H. injection H as Hf Ha Hl Hs He.
    exists f, a, l, s, e. split; [reflexivity|].
    rewrite <- lowerByte_f, <- lowerByte_a, <- lowerByte_l, <- lowerByte_s,
      <- lowerByte_e. auto.
  - intros (f' & a' & l' & s' & e' & H & Hf & Ha & Hl & Hs & He).
    injection H as -> -> -> -> ->.
    apply lowerByte_f in Hf. apply lowerByte_a in Ha. apply lowerByte_l in Hl.
    apply lowerByte_s in Hs. apply lowerByte_e in He.
    now rewrite Hf, Ha, Hl, Hs, He.
Qed.

Section Invariants.

Context {Private Session : Type} {ops : UserOps Private Session}.

Local Abbreviation World := (World Private Session).
Local Abbreviation User := (User Private Session).
Local Abbreviation M := (@M Private Session).

Implicit Types (w : World) (u : User) (env : Handshake)
  (evs pre rest : list Event) (r : http.Request).

#[local] Arguments jsonResponse : simpl never.
#[local] Arguments method : simpl never.

(** ** The middleware *)

Lemma subprotocolAuth_skip (auth : string) (before rest : list string) :
  forallb (fun p => negb (offersToken p)) before = true ->
  subprotocolAuth auth (before ++ rest) = subprotocolAuth auth rest.
Proof.
  intros Hb. induction before as [|p before IH];
    cbn [app subprotocolAuth forallb] in *; [reflexivity|].
  apply andb_true_iff in Hb as [Hp Hb]. apply negb_true_iff in Hp.
  unfold offersToken in Hp. rewrite Hp. now apply IH.
Qed.

(** X5.  Of the entries of the subprotocol offer, the first one that,
    trimmed, starts with the protocol identifier and a dash decides:
    the secret is what follows the dash, later entries are not looked
    at; without such an entry the secret stays what it was. *)
Theorem subprotocolAuth_first_match (auth : string) (before after : list string)
    (part : string) :
  forallb (fun p => negb (offersToken p)) before = true ->
  (offersToken part = true ->
   strings.TrimSpace part =
     (SecWebSocketProtocol ++ "-" ++
      subprotocolAuth auth (before ++ part :: after))%string) /\
  subprotocolAuth auth before = auth.
Proof.
  intros Hb. split.
  - intros Hp. rewrite subprotocolAuth_skip by assumption.
    cbn [subprotocolAuth]. unfold offersToken in Hp.
    rewrite Hp. apply HasPrefix_split in Hp.
    now rewrite append_assoc in Hp.
  - rewrite <- (app_nil_r before). now rewrite subprotocolAuth_skip.
Qed.

(** X6.  A request without an Authorization header presents the empty
    secret unless it is for a path ending in "/login" and offers a token
    among its subprotocols: it is turned away with 403 whenever the
    shared secret is not empty. *)
Theorem no_credentials_rejected SharedSecret (h : http.Request -> M unit) r w :
  http.Get (http.Header r) "Authorization" = "" ->
  strings.HasSuffix (http.Path r) "/login" = false \/
    forallb (fun p => negb (offersToken p))
      (strings.Split (http.Get (http.Header r) "Sec-WebSocket-Protocol")
                     ","%char) = true ->
  requestAuth r = "" /\
  (SharedSecret <> "" ->
   calls (snd (authMiddleware SharedSecret h r w)) = calls w /\
   exists body,
     resp (snd (authMiddleware SharedSecret h r w)) =
     resp w ++ [AddHeader "Content-Type" "application/json";
                WriteHeader 403; Encode body]).
Proof.
  intros Hauth Hcase.
  assert (Hreq : requestAuth r = "").
  { unfold requestAuth. rewrite Hauth. simpl.
    destruct Hcase as [Hsuf|Hno].
    - now rewrite Hsuf.
    - destruct (strings.HasSuffix (http.Path r) "/login"); [|reflexivity].
      rewrite <- (app_nil_r (strings.Split _ _)).
      now rewrite subprotocolAuth_skip. }
  split; [assumption|]. intros Hne.
  unfold authMiddleware. rewrite Hreq.
  assert (E : String.eqb "" SharedSecret = false)
    by (apply String.eqb_neq; congruence).
  rewrite E. change (negb false) with true. cbv iota.
  rewrite jsonResponse_run. simpl.
  split; [reflexivity|]. eexists. reflexivity.
Qed.

(** X7.  A request whose Authorization header is "Bearer " followed by
    the shared secret passes on every path, whatever subprotocols it
    offers: the user is looked up under the user_id parameter of the
    query, under the empty string when there is no such parameter, and
    the wrapped handler runs once, the middleware writing nothing
    itself. *)
Theorem bearer_passes SharedSecret (h : http.Request -> M unit) r w :
  http.Get (http.Header r) "Authorization" = ("Bearer " ++ SharedSecret)%string ->
  authMiddleware SharedSecret h r w =
    h r {| user := user w;
           calls := calls w ++
                    [Call.GetUserByMXID (http.Get (http.Query r) "user_id");
                     Call.ServeHTTP];
           resp := resp w; conn := conn w |} /\
  ((forall v, ~ In ("user_id", v) (http.Query r)) ->
   http.Get (http.Query r) "user_id" = "").
Proof.
  intros Hauth. split; [|apply Get_absent].
  unfold authMiddleware.
  rewrite (requestAuth_Bearer r SharedSecret Hauth), String.eqb_refl. simpl.
  unfold bind, call. simpl. now rewrite <- app_assoc.
Qed.

(** ** The session commands *)

(** Closes a goal about the one response of a handler whose branches
    have been computed. *)
Ltac answered :=
  rewrite <- ?app_assoc; simpl; do 2 eexists;
  (split; [reflexivity|split; [reflexivity|]]); simpl; auto 7.

(** X9.  [disconnect], [reconnect] and [logout] each write exactly one
    response and leave the websocket side alone; the status is 200 with
    a body whose success field is true, or one of 404, 409 and 500 with
    a body whose success field is false. *)
Theorem commands_answer_once r w :
  forall h, In h [disconnect; reconnect; logout] ->
  exists status body,
    resp (snd (h r w)) =
      resp w ++ [AddHeader "Content-Type" "application/json";
                 WriteHeader status; Encode body] /\
    conn (snd (h r w)) = conn w /\
    (status = 200 /\ field body "success" = Some (JBool true) \/
     In status [404; 409; 500] /\ field body "success" = Some (JBool false)).
Proof.
  intros h [<-|[<-|[<-|[]]]].
  - unfold disconnect, method, jsonResponse; unfold bind, getUser, call, write.
    destruct (Connected (user w)); simpl;
      [destruct (Disconnect (user w)) as [[e|] u']; simpl|]; answered.
  - unfold reconnect, method, jsonResponse; unfold bind, getUser, call, write.
    destruct (Connected (user w)); simpl;
      [|destruct (Connect (user w)) as [[e|] u']; simpl]; answered.
  - unfold logout, method, jsonResponse; unfold bind, getUser, call, write.
    destruct (LoggedIn (user w)); simpl;
      [destruct (session (user w));
       [destruct (Logout (user w)) as [[e|] u']|];
       destruct (forceOf r); simpl|]; answered.
Qed.

(** X10.  [reconnect] on a user that is not connected calls [Connect]
    once and nothing else, leaves the user as [Connect] left it and
    answers 200 when [Connect] succeeded, 500 with error code "failed to
    connect" when it failed; [disconnect] on a connected user answers
    200 or 500 with "failed to disconnect" in the same way. *)
Theorem toggle_outcomes r w :
  (Connected (user w) = false ->
   reconnect r w =
   (tt, {| user := snd (Connect (user w));
           calls := calls w ++ [Call.Connect];
           resp := resp w ++
             [AddHeader "Content-Type" "application/json";
              WriteHeader (match fst (Connect (user w)) with
                           | None => 200 | Some _ => 500 end);
              Encode (match fst (Connect (user w)) with
                      | None =>
                          ResponseBody
                            {| Response.Success := true;
                               Response.Status := "Connected to Discord" |}
                      | Some _ =>
                          ErrorBody
                            {| Error.Success := false;
                               Error.Error := "Failed to connect to discord";
                               Error.ErrCode := "failed to connect" |}
                      end)];
           conn := conn w |})) /\
  (Connected (user w) = true ->
   disconnect r w =
   (tt, {| user := snd (Disconnect (user w));
           calls := calls w ++ [Call.Disconnect];
           resp := resp w ++
             [AddHeader "Content-Type" "application/json";
              WriteHeader (match fst (Disconnect (user w)) with
                           | None => 200 | Some _ => 500 end);
              Encode (match fst (Disconnect (user w)) with
                      | None =>
                          ResponseBody
                            {| Response.Success := true;
                               Response.Status := "Disconnected from Discord" |}
                      | Some _ =>
                          ErrorBody
                            {| Error.Success := false;
                               Error.Error := "Failed to disconnect from discord";
                               Error.ErrCode := "failed to disconnect" |}
                      end)];
           conn := conn w |})).
Proof.
  split; intros Hc.
  - unfold reconnect, method, jsonResponse; unfold bind, getUser, call, write.
    rewrite Hc. simpl.
    destruct (Connect (user w)) as [[e|] u']; simpl;
      now rewrite <- !app_assoc.
  - unfold disconnect, method, jsonResponse; unfold bind, getUser, call, write.
    rewrite Hc. simpl.
    destruct (Disconnect (user w)) as [[e|] u']; simpl;
      now rewrite <- !app_assoc.
Qed.

(** X11.  [logout] calls [Logout] only for a user that is logged in and
    has a session.  A user that is not logged in gets 404 "not logged
    in" whatever the force parameter says; a logged-in user without a
    session gets 200 under force and the same 404 without it.  In both
    cases no method is called and the user is untouched. *)
Theorem logout_without_session r w :
  (LoggedIn (user w) = false ->
   logout r w =
   (tt, {| user := user w; calls := calls w;
           resp := resp w ++ [AddHeader "Content-Type" "application/json";
                              WriteHeader 404; Encode notLoggedIn];
           conn := conn w |})) /\
  (LoggedIn (user w) = true -> session (user w) = None ->
   logout r w =
   (tt, {| user := user w; calls := calls w;
           resp := resp w ++
             [AddHeader "Content-Type" "application/json";
              WriteHeader (if forceOf r then 200 else 404);
              Encode (if forceOf r then loggedOut else notLoggedIn)];
           conn := conn w |})).
Proof.
  split.
  - intros Hin. unfold logout, bind, getUser. rewrite Hin. simpl.
    now rewrite jsonResponse_run.
  - intros Hin Hs. unfold logout, bind, getUser. rewrite Hin, Hs. simpl.
    destruct (forceOf r); now rewrite jsonResponse_run.
Qed.

(** X12.  With force on, which is the default, [logout] of a logged-in
    user always answers 200 "Logged out successfully.", whether the user
    has a session or not and whether [Logout] fails or not. *)
Theorem logout_forced_succeeds r w :
  LoggedIn (user w) = true ->
  forceOf r = true ->
  resp (snd (logout r w)) =
  resp w ++ [AddHeader "Content-Type" "application/json";
             WriteHeader 200; Encode loggedOut].
Proof.
  intros Hin Hf.
  unfold logout, method, jsonResponse; unfold bind, getUser, call, write.
  rewrite Hin, Hf. simpl.
  destruct (session (user w)); simpl;
    [destruct (Logout (user w)) as [[e|] u']; simpl|];
    now rewrite <- !app_assoc.
Qed.

(** ** The login handler on every schedule *)

Lemma completed_cases env w :
  (exists discordUser e,
      result env = (discordUser, Some e) /\
      completed env w =
      (Failed "connection error",
       {| user := user w; calls := calls w ++ [Call.Result];
          resp := resp w;
          conn := conn w ++ [WriteJSON (ErrorBody connectionError)] |})) \/
  (exists discordUser,
      result env = (discordUser, None) /\
      completed env w =
      (match fst (Login (remoteauth.Token discordUser)
                    (Update (setID (remoteauth.UserID discordUser) (user w))))
       with Some _ => Failed "connection error" | None => Succeeded end,
       {| user := snd (Login (remoteauth.Token discordUser)
                    (Update (setID (remoteauth.UserID discordUser) (user w))));
          calls := calls w ++ [Call.Result; Call.Update;
                               Call.Login (remoteauth.Token discordUser)];
          resp := resp w;
          conn := conn w ++
            [WriteJSON
               match fst (Login (remoteauth.Token discordUser)
                            (Update (setID (remoteauth.UserID discordUser)
                                           (user w))))
               with
               | Some _ => ErrorBody connectionError
               | None =>
                   successMessage
                     (ID (snd (Login (remoteauth.Token discordUser)
                                 (Update (setID (remoteauth.UserID discordUser)
                                                (user w))))))
               end] |})).
Proof.
  destruct (result env) as [discordUser [e|]] eqn:Hres.
  - left. exists discordUser, e. split; [reflexivity|].
    now apply (completed_result_error env w discordUser e).
  - right. exists discordUser. split; [reflexivity|].
    destruct (Login (remoteauth.Token discordUser)
                (Update (setID (remoteauth.UserID discordUser) (user w))))
      as [err u'] eqn:HLu.
    now apply (completed_login w env discordUser err u').
Qed.

(** What the loop has done when it stops: the code messages of the
    codes delivered so far are written, and it either still waits, has
    met an outcome the channels rule out, has been cancelled, or has run
    the completion branch. *)
Lemma loop_cases env ch evs w :
  let w1 := sent (map codeMessage (deliveredCodes ch evs)) w in
  loop env ch evs w = (Waiting, w1) \/
  loop env ch evs w = (Impossible, w1) \/
  loop env ch evs w = (Cancelled, w1) \/
  loop env ch evs w = completed env w1.
Proof.
  revert w. induction evs as [|ev evs IH]; intros w; cbn zeta.
  - left. simpl. now rewrite sent_nil.
  - destruct ev as [qrCode| | |]; simpl.
    + destruct (qrClosed ch).
      * right; left. simpl. now rewrite sent_nil.
      * rewrite bind_onConn. simpl map. rewrite <- sent_cons. apply IH.
    + apply IH.
    + right; right; right. now rewrite sent_nil.
    + right; right; left. now rewrite sent_nil.
Qed.

Lemma login_cases r env evs w :
  upgradeErr env = None ->
  LoggedIn (user w) = false ->
  let w1 := sent (map codeMessage (deliveredCodes (afterDial env) evs))
                 (dialled r env w) in
  (exists e, In e [Waiting; Impossible; Cancelled] /\
             login r env evs w = (e, closing e w1)) \/
  login r env evs w =
    (fst (completed env w1),
     closing (fst (completed env w1)) (snd (completed env w1))).
Proof.
  intros Hup Hin w1. rewrite login_dialled by assumption.
  destruct (loop_cases env (afterDial env) evs (dialled r env w))
    as [H|[H|[H|H]]]; fold w1 in H; rewrite H; simpl.
  - left. exists Waiting. simpl. auto.
  - left. exists Impossible. simpl. auto.
  - left. exists Cancelled. simpl. auto.
  - right. reflexivity.
Qed.

Lemma loop_returns env ch evs w :
  forallb (possible ch) evs = true ->
  existsb terminal evs = true ->
  returned (fst (loop env ch evs w)) = true.
Proof.
  revert w. induction evs as [|ev evs IH]; intros w Hp Ht; [discriminate|].
  simpl in Hp, Ht. apply andb_true_iff in Hp as [Hev Hp].
  destruct ev as [qrCode| | |]; simpl in *.
  - apply negb_true_iff in Hev. rewrite Hev, bind_onConn. now apply IH.
  - now apply IH.
  - destruct (completed_cases env w) as [(du & e & _ & H)|(du & _ & H)];
      rewrite H; simpl; [reflexivity|].
    now destruct (fst (Login _ _)).
  - reflexivity.
Qed.

(** X13.  After a successful upgrade the handler returns as soon as
    [select] reports the completion signal or the cancellation: every
    schedule that contains one of the two, and asks nothing of a closed
    channel before, makes the handler return. *)
Theorem login_returns r env evs w :
  upgradeErr env = None ->
  forallb (possible (afterDial env)) evs = true ->
  existsb terminal evs = true ->
  returned (fst (login r env evs w)) = true.
Proof.
  intros Hup Hp Ht. destruct (LoggedIn (user w)) eqn:Hin.
  - now rewrite login_loggedIn.
  - rewrite login_dialled by assumption. simpl. now apply loop_returns.
Qed.


(** X15.  Whatever the schedule and the environment, the login handler
    changes the user in one situation only: the completion branch has
    obtained a result without error.  The user is then what [Login]
    leaves of the user with the new identity, also when [Login] fails;
    in particular no run changes the user when [Result] reports an
    error. *)
Theorem login_changes_user_on_completion_only r env evs w :
  user (snd (login r env evs w)) = user w \/
  exists discordUser,
    result env = (discordUser, None) /\
    user (snd (login r env evs w)) =
      snd (Login (remoteauth.Token discordUser)
             (Update (setID (remoteauth.UserID discordUser) (user w)))) /\
    (fst (login r env evs w) = Succeeded \/
     fst (login r env evs w) = Failed "connection error").
Proof.
  destruct (upgradeErr env) as [e|] eqn:Hup.
  - left. now rewrite (login_not_upgraded r env evs w e Hup).
  - destruct (LoggedIn (user w)) eqn:Hin.
    + left. now rewrite login_loggedIn.
    + destruct (login_cases r env evs w Hup Hin) as [(e & He & H)|H];
        rewrite H.
      * left. unfold closing. cbn [snd]. now destruct (returned e).
      * set (w1 := sent (map codeMessage (deliveredCodes (afterDial env) evs))
                        (dialled r env w)) in *.
        destruct (completed_cases env w1)
          as [(du & e & _ & Hc)|(du & Hres & Hc)]; rewrite Hc; cbn [fst snd].
        -- left. reflexivity.
        -- right. exists du. split; [assumption|].
           change (user w1) with (user w).
           destruct (Login (remoteauth.Token du) _) as [[e|] u'];
             cbn [fst snd]; auto.
Qed.


(** X17.  When the dial has succeeded and [Result] reports an error
    at the completion signal, the peer gets the code messages of the
    codes delivered before, then one "connection error" failure, and the
    connection is closed; neither [Update] nor [Login] is called and the
    user is left as it was. *)
Theorem login_result_error r env qrCodes rest w discordUser e :
  upgradeErr env = None ->
  LoggedIn (user w) = false ->
  dialErr env = None ->
  result env = (discordUser, Some e) ->
  login r env (map QrCode qrCodes ++ Done :: rest) w =
  (Failed "connection error",
   {| user := user w;
      calls := calls w ++
               [Call.GetUserByMXID (http.Get (http.Query r) "user_id");
                Call.Upgrade; Call.New; Call.Dial; Call.Result];
      resp := resp w;
      conn := conn (dialled r env w) ++
              map WriteJSON (map codeMessage qrCodes ++
                             [ErrorBody connectionError]) ++
              [Close] |}).
Proof.
  intros Hup Hin Hdial Hres.
  rewrite login_dialled by assumption.
  rewrite loop_waits by (auto using waits_QrCodes, possible_open).
  rewrite codeMessages_QrCodes. cbn [loop].
  rewrite (completed_result_error env _ discordUser e Hres).
  unfold closing, sent. simpl.
  now rewrite map_app, <- !app_assoc.
Qed.

(** X18.  When [Result] carries no error and [Login] then fails, the
    peer gets a "connection error" failure and the connection is closed,
    but the user has been changed: the identity of the result was stored
    and [Update] called before [Login] was tried, so the user keeps the
    new identity as long as [Update] and [Login] leave the [ID] field
    alone. *)
Theorem login_failure_keeps_new_identity r env qrCodes rest w discordUser e :
  upgradeErr env = None ->
  LoggedIn (user w) = false ->
  dialErr env = None ->
  result env = (discordUser, None) ->
  fst (Login (remoteauth.Token discordUser)
         (Update (setID (remoteauth.UserID discordUser) (user w)))) = Some e ->
  exists w',
    login r env (map QrCode qrCodes ++ Done :: rest) w =
      (Failed "connection error", w') /\
    conn w' = conn (dialled r env w) ++
              map WriteJSON (map codeMessage qrCodes ++
                             [ErrorBody connectionError]) ++
              [Close] /\
    calls w' = calls w ++
               [Call.GetUserByMXID (http.Get (http.Query r) "user_id");
                Call.Upgrade; Call.New; Call.Dial; Call.Result; Call.Update;
                Call.Login (remoteauth.Token discordUser)] /\
    user w' = snd (Login (remoteauth.Token discordUser)
                     (Update (setID (remoteauth.UserID discordUser) (user w)))) /\
    ((forall u, ID (Update u) = ID u) ->
     (forall t u, ID (snd (Login t u)) = ID u) ->
     ID (user w') = remoteauth.UserID discordUser).
Proof.
  intros Hup Hin Hdial Hres Hlogin.
  rewrite login_dialled by assumption.
  rewrite loop_waits by (auto using waits_QrCodes, possible_open).
  rewrite codeMessages_QrCodes. cbn [loop].
  destruct (Login (remoteauth.Token discordUser)
              (Update (setID (remoteauth.UserID discordUser) (user w))))
    as [err u'] eqn:HLu.
  simpl in Hlogin. subst err.
  rewrite (completed_login _ env discordUser (Some e) u' Hres)
    by (unfold dialled, sent; exact HLu).
  eexists. split; [reflexivity|]. unfold closing, sent. simpl.
  rewrite map_app, <- !app_assoc. simpl.
  repeat split.
  intros HU HL.
  replace u' with (snd (Login (remoteauth.Token discordUser)
               (Update (setID (remoteauth.UserID discordUser) (user w)))))
    by now rewrite HLu.
  now rewrite HL, HU.
Qed.



End Invariants.

(** ** Guilds and ping *)

Section ResourceProperties.

Context {Private Session Time : Type}.
Context {ops : UserOps Private Session}.
Context {gops : GuildOps Private Session} {hb : Heartbeats Session Time}.

Local Abbreviation World := (World Private Session).
Local Abbreviation User := (User Private Session).

Implicit Types (w : World) (u : User) (r : http.Request).

(** X20.  The three guild toggles pass the guildID variable of the
    route, the empty string when the route has none, to [bridgeGuild]
    (with [false] for bridge and [true] for joinentire) or to
    [unbridgeGuild].  On success they write the bare status 201, or 204
    for unbridge, and no body; on failure they answer 404 with the text
    of the error and the code "M_NOT_FOUND". *)
Theorem guild_toggles (vars : list (string * string)) r w :
  let guildID := http.Get vars "guildID" in
  let answer (res : error * User) (created : nat) : unit * World :=
    (tt, {| user := snd res; calls := calls w;
            resp := resp w ++
                    match fst res with
                    | None => [WriteHeader created]
                    | Some e =>
                        [AddHeader "Content-Type" "application/json";
                         WriteHeader 404;
                         Encode (ErrorBody
                                   {| Error.Success := false;
                                      Error.Error := e;
                                      Error.ErrCode := "M_NOT_FOUND" |})]
                    end;
            conn := conn w |}) in
  guildsBridge vars r w = answer (bridgeGuild guildID false (user w)) 201 /\
  guildsJoinEntire vars r w = answer (bridgeGuild guildID true (user w)) 201 /\
  guildsUnbridge vars r w = answer (unbridgeGuild guildID (user w)) 204 /\
  ((forall v, ~ In ("guildID", v) vars) -> guildID = "").
Proof.
  cbn zeta. repeat split.
  - unfold guildsBridge, invoke, jsonResponse; unfold bind, write.
    destruct (bridgeGuild _ _ _) as [[e|] u']; simpl;
      now rewrite <- ?app_assoc.
  - unfold guildsJoinEntire, invoke, jsonResponse; unfold bind, write.
    destruct (bridgeGuild _ _ _) as [[e|] u']; simpl;
      now rewrite <- ?app_assoc.
  - unfold guildsUnbridge, invoke, jsonResponse; unfold bind, write.
    destruct (unbridgeGuild _ _) as [[e|] u']; simpl;
      now rewrite <- ?app_assoc.
  - apply Get_absent.
Qed.

(** X21.  [guildsList] answers 200 with an array that has one entry per
    guild of the user, in the order of the table: the entry at each
    position carries the id, the name and the bridge flag of the guild
    at that position, and a user without guilds gets the empty array. *)
Theorem guildsList_entries u :
  fst (guildsList (Time := Time) u) = 200 /\
  exists entries,
    snd (guildsList (Time := Time) u) = VArray entries /\
    List.length entries = List.length (guilds u) /\
    (guilds u = [] -> entries = []) /\
    forall i guild,
      nth_error (guilds u) i = Some guild ->
      exists m,
        nth_error entries i = Some (VObject m) /\
        vfield m "id" = Some (VString (GuildID guild)) /\
        vfield m "name" = Some (VString (GuildName guild)) /\
        vfield m "bridged" = Some (VBool (Bridge guild)).
Proof.
  split; [reflexivity|].
  exists (map guildEntry (guilds u)). repeat split.
  - apply length_map.
  - now intros ->.
  - intros i guild Hi.
    exists [("name", VString (GuildName guild));
            ("id", VString (GuildID guild));
            ("bridged", VBool (Bridge guild))].
    split; [|repeat split].
    now apply (map_nth_error guildEntry).
Qed.

(** X22.  In the answer of [ping] the discord object has each key once;
    it has an "id" entry exactly when the user has a non-empty ID, and
    its "conn" entry is null exactly when the user has no session, the
    two heartbeat times of the session otherwise. *)
Theorem ping_fields u :
  fst (ping u) = 200 /\
  NoDup (map fst (pingDiscord u)) /\
  vfield (pingDiscord u) "logged_in" = Some (VBool (LoggedIn u)) /\
  vfield (pingDiscord u) "connected" = Some (VBool (Connected u)) /\
  vfield (pingDiscord u) "id" =
    (if String.eqb (ID u) "" then None else Some (VString (ID u))) /\
  vfield (pingDiscord u) "conn" =
    Some match session u with
         | None => VNull
         | Some s =>
             VObject [("last_heartbeat_ack", VTime (LastHeartbeatAck s));
                      ("last_heartbeat_sent", VTime (LastHeartbeatSent s))]
         end.
Proof.
  split; [reflexivity|]. unfold pingDiscord.
  destruct (String.eqb (ID u) ""), (session u); simpl;
    (split; [repeat constructor; simpl; intuition discriminate|]);
    repeat split.
Qed.

End ResourceProperties.

(** ** The further properties on concrete inputs *)

Lemma HasSuffix_iff_witness :
  strings.HasSuffix "/_matrix/provision/v1/login" "/login" = true.
Proof.
  apply (proj2 (HasSuffix_iff "/_matrix/provision/v1/login" "/login")).
  exists "/_matrix/provision/v1". reflexivity.
Defined.

Lemma HasPrefix_cut_witness :
  "Bearer abc" = ("Bearer " ++ strings.drop (String.length "Bearer ") "Bearer abc")%string.
Proof.
  apply (HasPrefix_cut "Bearer abc" "Bearer "). reflexivity.
Defined.

Lemma TrimSpace_trimmed_witness : strings.TrimSpace "a b" = "a b".
Proof.
  apply (TrimSpace_trimmed "a b"); reflexivity.
Defined.

Lemma forceOf_false_witness :
  forceOf (Ref.post "/logout" [("force", "FaLsE")]) = false.
Proof.
  apply (proj2 (forceOf_false (Ref.post "/logout" [("force", "FaLsE")]))).
  exists "F"%char, "a"%char, "L"%char, "s"%char, "E"%char.
  repeat split; auto.
Defined.

Lemma subprotocolAuth_first_match_witness :
  strings.TrimSpace " com.gitlab.beeper.discord-abc" =
  (SecWebSocketProtocol ++ "-" ++
   subprotocolAuth ""
     (["com.gitlab.beeper.discord"] ++
      " com.gitlab.beeper.discord-abc" ::
      ["com.gitlab.beeper.discord-zzz"]))%string.
Proof.
  apply (subprotocolAuth_first_match "" ["com.gitlab.beeper.discord"]
           ["com.gitlab.beeper.discord-zzz"]
           " com.gitlab.beeper.discord-abc");
    reflexivity.
Defined.

Lemma no_credentials_rejected_witness :
  requestAuth
    {| http.Method := "GET"; http.Path := "/_matrix/provision/v1/login";
       http.Header := [("Sec-WebSocket-Protocol", "com.gitlab.beeper.discord")];
       http.Query := [] |} = "".
Proof.
  apply (no_credentials_rejected "abc" (disconnect (ops := Ref.ops false))
           {| http.Method := "GET"; http.Path := "/_matrix/provision/v1/login";
              http.Header :=
                [("Sec-WebSocket-Protocol", "com.gitlab.beeper.discord")];
              http.Query := [] |}
           (start Ref.online)).
  - reflexivity.
  - right. reflexivity.
Defined.

Lemma bearer_passes_witness :
  authMiddleware "abc" (disconnect (ops := Ref.ops false))
    (Ref.post "/_matrix/provision/v1/disconnect" []) (start Ref.online) =
  disconnect (ops := Ref.ops false)
    (Ref.post "/_matrix/provision/v1/disconnect" [])
    {| user := Ref.online;
       calls := [Call.GetUserByMXID ""; Call.ServeHTTP];
       resp := []; conn := [] |}.
Proof.
  apply (bearer_passes "abc" (disconnect (ops := Ref.ops false))
           (Ref.post "/_matrix/provision/v1/disconnect" [])
           (start Ref.online)).
  reflexivity.
Defined.

Lemma commands_answer_once_witness :
  exists status body,
    resp (snd (logout (ops := Ref.ops true) (Ref.post "/logout" [])
                 (start Ref.online))) =
      resp (start Ref.online) ++
      [AddHeader "Content-Type" "application/json";
       WriteHeader status; Encode body] /\
    conn (snd (logout (ops := Ref.ops true) (Ref.post "/logout" [])
                 (start Ref.online))) = conn (start Ref.online) /\
    (status = 200 /\ field body "success" = Some (JBool true) \/
     In status [404; 409; 500] /\ field body "success" = Some (JBool false)).
Proof.
  apply (commands_answer_once (ops := Ref.ops true) (Ref.post "/logout" [])
           (start Ref.online) logout).
  simpl. auto.
Defined.

Lemma toggle_outcomes_witness :
  resp (snd (reconnect (ops := Ref.ops true) (Ref.post "/reconnect" [])
               (start Ref.offline))) =
  [AddHeader "Content-Type" "application/json"; WriteHeader 500;
   Encode (ErrorBody {| Error.Success := false;
                        Error.Error := "Failed to connect to discord";
                        Error.ErrCode := "failed to connect" |})].
Proof.
  rewrite (proj1 (toggle_outcomes (ops := Ref.ops true)
                    (Ref.post "/reconnect" []) (start Ref.offline)) eq_refl).
  reflexivity.
Defined.

Lemma logout_without_session_witness :
  resp (snd (logout (ops := Ref.ops false) (Ref.post "/logout" [])
               (start Ref.fresh))) =
  [AddHeader "Content-Type" "application/json"; WriteHeader 404;
   Encode notLoggedIn].
Proof.
  rewrite (proj1 (logout_without_session (ops := Ref.ops false)
                    (Ref.post "/logout" []) (start Ref.fresh)) eq_refl).
  reflexivity.
Defined.

Lemma logout_forced_succeeds_witness :
  resp (snd (logout (ops := Ref.ops true) (Ref.post "/logout" [])
               (start Ref.online))) =
  [AddHeader "Content-Type" "application/json"; WriteHeader 200;
   Encode loggedOut].
Proof.
  apply (logout_forced_succeeds (ops := Ref.ops true) (Ref.post "/logout" [])
           (start Ref.online)); reflexivity.
Defined.

Lemma login_returns_witness :
  returned (fst (login (ops := Ref.ops false) Ref.loginRequest Ref.reachable
                   [QrCode "XQR1"; QrClosed; CtxDone] (start Ref.fresh))) = true.
Proof.
  apply (login_returns (ops := Ref.ops false) Ref.loginRequest Ref.reachable
           [QrCode "XQR1"; QrClosed; CtxDone] (start Ref.fresh));
    reflexivity.
Defined.


Lemma login_result_error_witness :
  fst (login (ops := Ref.ops false) Ref.loginRequest
         (Ref.env None (Ref.identity, Some "remote auth: timed out"))
         (map QrCode ["XQR1"] ++ Done :: []) (start Ref.fresh)) =
  Failed "connection error".
Proof.
  rewrite (login_result_error (ops := Ref.ops false) Ref.loginRequest
             (Ref.env None (Ref.identity, Some "remote auth: timed out"))
             ["XQR1"] [] (start Ref.fresh) Ref.identity
             "remote auth: timed out" eq_refl eq_refl eq_refl eq_refl).
  reflexivity.
Defined.

Lemma login_failure_keeps_new_identity_witness :
  exists w',
    login (ops := Ref.ops true) Ref.loginRequest Ref.reachable
      (map QrCode ["XQR1"] ++ Done :: []) (start Ref.fresh) =
      (Failed "connection error", w') /\
    ID (user w') = "discorduser#1".
Proof.
  assert (HL : forall t (u : Ref.User),
             ID (snd (Login (UserOps := Ref.ops true) t u)) = ID u).
  { intros t u. simpl. destruct (String.eqb t ""); reflexivity. }
  destruct (login_failure_keeps_new_identity (ops := Ref.ops true)
              Ref.loginRequest Ref.reachable ["XQR1"] [] (start Ref.fresh)
              Ref.identity "dial tcp: connection refused"
              eq_refl eq_refl eq_refl eq_refl eq_refl)
    as [w' [Hrun [_ [_ [_ Hid]]]]].
  exists w'. split; [exact Hrun|].
  exact (Hid (fun u => eq_refl) HL).
Defined.


Lemma guild_toggles_witness : http.Get [("guild", "1")] "guildID" = "".
Proof.
  apply (guild_toggles (gops := RefGuilds.gops) [("guild", "1")]
           (Ref.post "/guilds//bridge" []) (start Ref.fresh)).
  intros v [H|[]]. discriminate H.
Defined.

Lemma guildsList_entries_witness :
  exists m,
    vfield (Time := nat) m "id" = Some (VString "2") /\
    vfield m "bridged" = Some (VBool false).
Proof.
  destruct (guildsList_entries (Time := nat) (gops := RefGuilds.gops)
              Ref.fresh) as [_ [entries [_ [_ [_ H]]]]].
  destruct (H 1 {| GuildID := "2"; GuildName := "two"; Bridge := false |}
              eq_refl) as [m [_ [Hid [_ Hb]]]].
  exists m. split; assumption.
Defined.

(** The answer of [ping] for a user that is logged in and connected. *)
Example ping_online :
  ping (ops := Ref.ops false) (hb := RefGuilds.hb) Ref.online =
  (200,
   VObject
     [("discord",
       VObject [("logged_in", VBool true); ("connected", VBool true);
                ("conn", VObject [("last_heartbeat_ack", VTime 17);
                                  ("last_heartbeat_sent", VTime 16)]);
                ("id", VString "discorduser#0")]);
      ("management_room", VString "");
      ("mxid", VString "@u:server")]).
Proof. reflexivity. Qed.
